(** * ignite.distributed.comp_models.base

    A shallow embedding of [ComputationModel] and [_SerialModel]
    (src/ignite/distributed/comp_models/base.py) and the properties of its
    operand codec, its casting wrapper, its topology derivation and its
    collectives.

    Python values are modelled as follows.
    - [int] is [Z]; [//] is floor division, which is [Z.div]; a zero divisor
      raises [ZeroDivisionError].
    - [str] is a list of Unicode code points (Python's [len] counts code
      points); [bytearray(x, "utf-8")] and [bytes.decode("utf-8")] are the
      strict UTF-8 codec.
    - [float] is an IEEE-754 binary64 value ([spec_float] of the Standard
      Library); the narrower torch formats are obtained by rounding.
    - a [torch.Tensor] is a record of dtype, device, shape and flat contents.
    - exceptions are values of [exn]; a computation returns [Ok] or [Raise].
    - [warnings.warn], [Tensor.to] and the calls of the backend primitives are
      recorded, in program order, in a trace. *)

From Stdlib Require Import ZArith List Bool String Lia SpecFloat DecimalString.
Import ListNotations.
Open Scope Z_scope.

(** ** Exceptions and results *)

Inductive exn : Type :=
| TypeError
| ValueError
| IndexError
| RuntimeError
| OverflowError
| ZeroDivisionError
| UnicodeEncodeError
| UnicodeDecodeError
| AttributeError
| NotImplementedError
| BackendError (code : Z).

Inductive res (A : Type) : Type :=
| Ok (a : A)
| Raise (e : exn).
Arguments Ok {A} a.
Arguments Raise {A} e.

Definition res_bind {A B} (r : res A) (k : A -> res B) : res B :=
  match r with
  | Ok a => k a
  | Raise e => Raise e
  end.

Fixpoint res_map {A B} (f : A -> res B) (l : list A) : res (list B) :=
  match l with
  | [] => Ok []
  | a :: l' =>
      res_bind (f a) (fun b => res_bind (res_map f l') (fun bs => Ok (b :: bs)))
  end.

(** ** Python numbers *)

(** The numbers the collectives are annotated to take: [int], [bool] (a
    subclass of [int], hence a [numbers.Number]) and [float]. *)
Inductive number : Type :=
| PyInt (z : Z)
| PyBool (b : bool)
| PyFloat (f : spec_float).

Definition len {A} (l : list A) : Z := Z.of_nat (List.length l).

(** Python's [x[:k]] on a sequence. *)
Definition slice_to {A} (l : list A) (k : Z) : list A :=
  if k <? 0 then firstn (Z.to_nat (Z.max 0 (len l + k))) l
  else firstn (Z.to_nat k) l.

(** ** The part of torch the module uses *)

Module torch.

Inductive dtype : Type :=
| uint8 | int8 | int16 | int32 | int64 | bool
| float16 | bfloat16 | float32 | float64.

Definition long := int64.
Definition float := float32.

Definition dtype_eqb (a b : dtype) : Datatypes.bool :=
  match a, b with
  | uint8, uint8 | int8, int8 | int16, int16 | int32, int32 | int64, int64
  | bool, bool | float16, float16 | bfloat16, bfloat16
  | float32, float32 | float64, float64 => true
  | _, _ => false
  end.

(** [torch.is_floating_point] at the level of dtypes. *)
Definition is_floating_point (d : dtype) : Datatypes.bool :=
  match d with
  | float16 | bfloat16 | float32 | float64 => true
  | _ => false
  end.

Definition is_integer (d : dtype) : Datatypes.bool :=
  match d with
  | uint8 | int8 | int16 | int32 | int64 => true
  | _ => false
  end.

Inductive device : Type :=
| cpu
| cuda (index : option nat)
| xla (index : nat).

Definition device_eqb (a b : device) : Datatypes.bool :=
  match a, b with
  | cpu, cpu => true
  | cuda None, cuda None => true
  | cuda (Some i), cuda (Some j) => Nat.eqb i j
  | xla i, xla j => Nat.eqb i j
  | _, _ => false
  end.

(** *** Element conversion *)

(** Precision and maximal exponent of a floating dtype. *)
Definition float_format (d : dtype) : option (Z * Z) :=
  match d with
  | float16 => Some (11, 16)
  | bfloat16 => Some (8, 128)
  | float32 => Some (24, 128)
  | float64 => Some (53, 1024)
  | _ => None
  end.

(** Width and signedness of an integer dtype. *)
Definition int_format (d : dtype) : option (Z * Datatypes.bool) :=
  match d with
  | uint8 => Some (8, false)
  | int8 => Some (8, true)
  | int16 => Some (16, true)
  | int32 => Some (32, true)
  | int64 => Some (64, true)
  | _ => None
  end.

Definition wrap (w : Z) (signed : Datatypes.bool) (z : Z) : Z :=
  let m := z mod 2 ^ w in
  if signed && (2 ^ (w - 1) <=? m) then m - 2 ^ w else m.

Definition double_of_Z (z : Z) : spec_float :=
  binary_normalize 53 1024 z 0 false.

(** Round a binary64 value to the format [(prec, emax)], to nearest even,
    and give the result back as a binary64 value. *)
Definition round_to (prec emax : Z) (f : spec_float) : spec_float :=
  match f with
  | S754_finite s m e =>
      match binary_normalize prec emax (cond_Zopp s (Zpos m)) e s with
      | S754_finite s' m' e' =>
          binary_normalize 53 1024 (cond_Zopp s' (Zpos m')) e' s'
      | r => r
      end
  | _ => f
  end.

(** Truncation toward zero, as a C cast of a double to an integer does.
    The cast of a NaN or an infinity is undefined in C; the value the
    x86-64 conversion instruction gives is taken. *)
Definition trunc (f : spec_float) : Z :=
  match f with
  | S754_zero _ => 0
  | S754_finite s m e =>
      cond_Zopp s (if 0 <=? e then Zpos m * 2 ^ e else Zpos m / 2 ^ (- e))
  | _ => - 2 ^ 63
  end.

Definition as_double (x : number) : spec_float :=
  match x with
  | PyInt z => double_of_Z z
  | PyBool b => double_of_Z (if b then 1 else 0)
  | PyFloat f => f
  end.

Definition as_Z (x : number) : Z :=
  match x with
  | PyInt z => z
  | PyBool b => if b then 1 else 0
  | PyFloat f => trunc f
  end.

Definition is_zero (x : number) : Datatypes.bool :=
  match x with
  | PyInt z => z =? 0
  | PyBool b => negb b
  | PyFloat (S754_zero _) => true
  | PyFloat _ => false
  end.

(** The element stored in a tensor of dtype [d] for the value [x], as the
    Python number that reading it back gives: a [float] for a floating
    dtype, an [int] for an integer dtype, a [bool] for [torch.bool]. *)
Definition cast (d : dtype) (x : number) : number :=
  match float_format d, int_format d with
  | Some (prec, emax), _ => PyFloat (round_to prec emax (as_double x))
  | None, Some (w, signed) => PyInt (wrap w signed (as_Z x))
  | None, None => PyBool (negb (is_zero x))
  end.

(** *** Tensors *)

Record Tensor : Type := mkTensor {
  tdtype : dtype;
  tdevice : device;
  tshape : list nat;
  tdata : list number
}.

Definition numel (t : Tensor) : Z :=
  Z.of_nat (fold_right Nat.mul 1%nat (tshape t)).

(** [Tensor.to(dtype=.., device=..)], each argument optional.  The contents
    are converted only when the dtype changes. *)
Definition to_ (dt : option dtype) (dev : option device) (t : Tensor) : Tensor :=
  {| tdtype := match dt with Some d => d | None => tdtype t end;
     tdevice := match dev with Some d => d | None => tdevice t end;
     tshape := tshape t;
     tdata := match dt with
              | Some d =>
                  if dtype_eqb d (tdtype t) then tdata t
                  else map (cast d) (tdata t)
              | None => tdata t
              end |}.

(** [torch.zeros(n, device=.., dtype=..)]. *)
Definition zeros (n : nat) (dev : device) (d : dtype) : Tensor :=
  {| tdtype := d; tdevice := dev; tshape := [n];
     tdata := repeat (cast d (PyInt 0)) n |}.

(** [Tensor.unsqueeze(0)]. *)
Definition unsqueeze0 (t : Tensor) : Tensor :=
  {| tdtype := tdtype t; tdevice := tdevice t;
     tshape := 1%nat :: tshape t; tdata := tdata t |}.

(** The Python type of the numbers read from a tensor of dtype [d]. *)
Definition has_dtype (d : dtype) (x : number) : Datatypes.bool :=
  match x with
  | PyFloat _ => is_floating_point d
  | PyInt _ => is_integer d
  | PyBool _ => dtype_eqb d bool
  end.

(** A tensor holds as many elements as its shape says, all of its dtype. *)
Definition well_formed (t : Tensor) : Datatypes.bool :=
  Nat.eqb (List.length (tdata t)) (fold_right Nat.mul 1%nat (tshape t))
  && forallb (has_dtype (tdtype t)) (tdata t).

(** [Tensor.item()]: only a tensor of one element converts to a scalar. *)
Definition item (t : Tensor) : res number :=
  match tdata t with
  | [x] => if numel t =? 1 then Ok x else Raise ValueError
  | _ => Raise ValueError
  end.

(** The dtype [torch.tensor] infers for a Python scalar (the default
    floating dtype is [float32]). *)
Definition infer_dtype (x : number) : dtype :=
  match x with
  | PyInt _ => int64
  | PyBool _ => bool
  | PyFloat _ => float32
  end.

(** Storing a Python scalar as an element of dtype [d]: an [int] goes through
    a C [long long] (integer dtypes) or a C [double] (floating dtypes) and
    must fit. *)
Definition store (d : dtype) (x : number) : res number :=
  match x with
  | PyInt z =>
      if is_floating_point d then
        match double_of_Z z with
        | S754_infinity _ => Raise OverflowError
        | _ => Ok (cast d x)
        end
      else if (z <? - 2 ^ 63) || (2 ^ 63 <=? z) then Raise RuntimeError
      else Ok (cast d x)
  | _ => Ok (cast d x)
  end.

(** [torch.tensor(x, device=.., dtype=..)] for a scalar [x]: a tensor of no
    dimension and one element. *)
Definition tensor (x : number) (dev : device) (dt : option dtype) : res Tensor :=
  let d := match dt with Some d => d | None => infer_dtype x end in
  res_bind (store d x) (fun e =>
  Ok {| tdtype := d; tdevice := dev; tshape := []; tdata := [e] |}).

(** [torch.tensor([x0, ..], device=.., dtype=d)] for a list of scalars. *)
Definition tensor_list (xs : list number) (dev : device) (d : dtype) : res Tensor :=
  res_bind (res_map (store d) xs) (fun es =>
  Ok {| tdtype := d; tdevice := dev; tshape := [List.length xs]; tdata := es |}).

(** [torch.tensor(b)] for a [bytearray] [b]. *)
Definition tensor_bytearray (b : list Z) : Tensor :=
  {| tdtype := uint8; tdevice := cpu; tshape := [List.length b];
     tdata := map PyInt b |}.

(** [torch.empty(n0, n1, .., device=.., dtype=..)]; [mem] is whatever the
    allocated memory holds. *)
Definition empty (shape : list nat) (dev : device) (d : dtype)
    (mem : list number) : Tensor :=
  {| tdtype := d; tdevice := dev; tshape := shape; tdata := mem |}.

(** [len(t)]: the size of the first dimension. *)
Definition len (t : Tensor) : res Z :=
  match tshape t with
  | [] => Raise TypeError
  | n :: _ => Ok (Z.of_nat n)
  end.

(** [t[:k] = v] for one-dimensional [t] and [v]: the value must have the
    size of the slice or a single element. *)
Definition setitem_slice_to (t : Tensor) (k : Z) (v : Tensor) : res Tensor :=
  let m := List.length (slice_to (tdata t) k) in
  let vs := map (cast (tdtype t)) (tdata v) in
  if Nat.eqb (List.length vs) m then
    Ok {| tdtype := tdtype t; tdevice := tdevice t; tshape := tshape t;
          tdata := vs ++ skipn m (tdata t) |}
  else
    match vs with
    | [x] => Ok {| tdtype := tdtype t; tdevice := tdevice t; tshape := tshape t;
                   tdata := repeat x m ++ skipn m (tdata t) |}
    | _ => Raise RuntimeError
    end.

(** [t[-1] = x] for a one-dimensional [t]. *)
Definition setitem_last (t : Tensor) (x : number) : res Tensor :=
  match tdata t with
  | [] => Raise IndexError
  | _ => Ok {| tdtype := tdtype t; tdevice := tdevice t; tshape := tshape t;
               tdata := removelast (tdata t) ++ [cast (tdtype t) x] |}
  end.

Fixpoint chunks {A} (n k : nat) (l : list A) : list (list A) :=
  match n with
  | O => []
  | S n' => firstn k l :: chunks n' k (skipn k l)
  end.

(** [for x in xs]: the sub-tensors along the first dimension. *)
Definition rows (xs : Tensor) : res (list Tensor) :=
  match tshape xs with
  | [] => Raise TypeError
  | n :: rest =>
      Ok (map (fun d => {| tdtype := tdtype xs; tdevice := tdevice xs;
                           tshape := rest; tdata := d |})
              (chunks n (fold_right Nat.mul 1%nat rest) (tdata xs)))
  end.

(** [int(x[-1])] used as a slice bound, for a one-dimensional [x]: only a
    tensor of integers or booleans converts to an index. *)
Definition last_index (x : Tensor) : res Z :=
  match tshape x with
  | [] => Raise IndexError
  | [_] =>
      match rev (tdata x) with
      | [] => Raise IndexError
      | e :: _ =>
          if is_floating_point (tdtype x) then Raise TypeError
          else Ok (as_Z e)
      end
  | O :: _ => Raise IndexError
  | _ => Raise TypeError
  end.

(** [x[:k].tolist()] for a one-dimensional [x]. *)
Definition slice_tolist (x : Tensor) (k : Z) : list number :=
  slice_to (tdata x) k.

End torch.

(** ** Python strings and the UTF-8 codec *)

(** A Python [str] is a sequence of code points in [0, 0x10FFFF]. *)
Definition str : Type := list Z.

Module utf8.

Definition is_surrogate (c : Z) : bool := (0xD800 <=? c) && (c <=? 0xDFFF).

(** The bytes of one code point.  A lone surrogate cannot be encoded; a
    number outside the code space is no character of a Python string. *)
Definition encode_char (c : Z) : res (list Z) :=
  if (c <? 0) || (0x10FFFF <? c) then Raise UnicodeEncodeError
  else if c <? 0x80 then Ok [c]
  else if c <? 0x800 then Ok [0xC0 + c / 64; 0x80 + c mod 64]
  else if c <? 0x10000 then
    if is_surrogate c then Raise UnicodeEncodeError
    else Ok [0xE0 + c / 4096; 0x80 + (c / 64) mod 64; 0x80 + c mod 64]
  else Ok [0xF0 + c / 262144; 0x80 + (c / 4096) mod 64;
           0x80 + (c / 64) mod 64; 0x80 + c mod 64].

(** [bytearray(x, "utf-8")]. *)
Definition encode (x : str) : res (list Z) :=
  res_bind (res_map encode_char x) (fun bss => Ok (List.concat bss)).

Definition continuation (b : Z) : bool := (0x80 <=? b) && (b <? 0xC0).

(** [bytes.decode("utf-8")], strict: overlong forms, surrogates, code points
    above 0x10FFFF and truncated sequences are errors. *)
Fixpoint decode (bs : list Z) : res str :=
  match bs with
  | [] => Ok []
  | b0 :: r0 =>
      if b0 <? 0x80 then res_bind (decode r0) (fun s => Ok (b0 :: s))
      else if b0 <? 0xC2 then Raise UnicodeDecodeError
      else if b0 <? 0xE0 then
        match r0 with
        | b1 :: r1 =>
            if continuation b1
            then res_bind (decode r1)
                   (fun s => Ok ((b0 - 0xC0) * 64 + (b1 - 0x80) :: s))
            else Raise UnicodeDecodeError
        | _ => Raise UnicodeDecodeError
        end
      else if b0 <? 0xF0 then
        match r0 with
        | b1 :: b2 :: r2 =>
            let c := (b0 - 0xE0) * 4096 + (b1 - 0x80) * 64 + (b2 - 0x80) in
            if continuation b1 && continuation b2
               && negb (c <? 0x800) && negb (is_surrogate c)
            then res_bind (decode r2) (fun s => Ok (c :: s))
            else Raise UnicodeDecodeError
        | _ => Raise UnicodeDecodeError
        end
      else if b0 <? 0xF5 then
        match r0 with
        | b1 :: b2 :: b3 :: r3 =>
            let c := (b0 - 0xF0) * 262144 + (b1 - 0x80) * 4096
                     + (b2 - 0x80) * 64 + (b3 - 0x80) in
            if continuation b1 && continuation b2 && continuation b3
               && negb (c <? 0x10000) && (c <=? 0x10FFFF)
            then res_bind (decode r3) (fun s => Ok (c :: s))
            else Raise UnicodeDecodeError
        | _ => Raise UnicodeDecodeError
        end
      else Raise UnicodeDecodeError
  end.

End utf8.

(** [bytearray(ints)]: every item must be in [range(0, 256)]. *)
Definition bytearray (l : list Z) : res (list Z) :=
  if forallb (fun b => (0 <=? b) && (b <? 256)) l then Ok l
  else Raise ValueError.

(** ** Effects: the model's attributes and the trace *)

Inductive event : Type :=
| Warn (msg : string)
| Probe
| To (dt : option torch.dtype) (dev : option torch.device)
| Call (name : string) (t : torch.Tensor).

(** The instance attributes set by [ComputationModel.__init__] together with
    the trace of what the process has done so far. *)
Record world : Type := mkWorld {
  _nproc_per_node : option Z;
  _nnodes : option Z;
  _node : option Z;
  trace : list event
}.

(** [ComputationModel.__init__]. *)
Definition __init__ : world :=
  {| _nproc_per_node := None; _nnodes := None; _node := None; trace := [] |}.

Definition M (A : Type) : Type := world -> res A * world.

Definition ret {A} (a : A) : M A := fun w => (Ok a, w).

Definition bind {A B} (m : M A) (k : A -> M B) : M B :=
  fun w =>
    match m w with
    | (Ok a, w') => k a w'
    | (Raise e, w') => (Raise e, w')
    end.

Definition raise {A} (e : exn) : M A := fun w => (Raise e, w).

Definition lift {A} (r : res A) : M A := fun w => (r, w).

Definition log (ev : event) : M unit :=
  fun w =>
    (Ok tt, {| _nproc_per_node := _nproc_per_node w; _nnodes := _nnodes w;
               _node := _node w; trace := trace w ++ [ev] |}).

Notation "x <- m ;; k" := (bind m (fun x => k))
  (at level 61, m at next level, right associativity).
Notation "m ;;; k" := (bind m (fun _ => k))
  (at level 61, right associativity).

(** [warnings.warn(msg)]. *)
Definition warn (msg : string) : M unit := log (Warn msg).

(** [tensor.to(..)], recorded. *)
Definition to (t : torch.Tensor) (dt : option torch.dtype)
    (dev : option torch.device) : M torch.Tensor :=
  log (To dt dev) ;;; ret (torch.to_ dt dev t).

(** ** Operands *)

#[local] Set Warnings "-register-all".

(** The values a collective can be handed: [numbers.Number], [str],
    [torch.Tensor], and objects of other types. *)
Inductive pyobj : Type :=
| Number (n : number)
| Str (s : str)
| Tensor (t : torch.Tensor)
| PyList (l : list pyobj)
| PyDict (items : list (pyobj * pyobj))
| PyNone.

Definition isinstance_Number (x : pyobj) : bool :=
  match x with Number _ => true | _ => false end.

Definition isinstance_str (x : pyobj) : bool :=
  match x with Str _ => true | _ => false end.

Definition isinstance_Tensor (x : pyobj) : bool :=
  match x with Tensor _ => true | _ => false end.

(** [Tensor.tolist()]: nested lists following the shape. *)
Fixpoint tolist_aux (shape : list nat) (data : list number) : pyobj :=
  match shape with
  | [] => Number (nth 0 data (PyInt 0))
  | n :: rest =>
      PyList (map (tolist_aux rest)
                  (torch.chunks n (fold_right Nat.mul 1%nat rest) data))
  end.

Definition tolist (t : torch.Tensor) : pyobj :=
  tolist_aux (torch.tshape t) (torch.tdata t).

(** ** ComputationModel *)

(** The abstract methods a backend provides, and the class attribute
    [_collective_op_dtype].  A primitive is a function of its operand that
    returns a tensor or raises; [uninitialized] gives the contents of the
    memory [torch.empty] allocates on this process, for a shape and a dtype. *)
Class ComputationModel : Type := {
  get_rank : Z;
  get_world_size : Z;
  device : torch.device;
  _collective_op_dtype : option torch.dtype;
  _compute_nproc_per_node : res Z;
  _do_all_reduce : torch.Tensor -> string -> res torch.Tensor;
  _do_all_gather : torch.Tensor -> res torch.Tensor;
  _do_broadcast : torch.Tensor -> Z -> res torch.Tensor;
  uninitialized : list nat -> torch.dtype -> list number
}.

(** A call of a primitive, recorded with its operand. *)
Definition call (name : string) (f : torch.Tensor -> res torch.Tensor)
    (t : torch.Tensor) : M torch.Tensor :=
  log (Call name t) ;;; lift (f t).

Definition floordiv (a b : Z) : res Z :=
  if b =? 0 then Raise ZeroDivisionError else Ok (a / b).

Definition set__nproc_per_node (v : Z) : M unit :=
  fun w => (Ok tt, {| _nproc_per_node := Some v; _nnodes := _nnodes w;
                      _node := _node w; trace := trace w |}).

Definition set__nnodes (v : Z) : M unit :=
  fun w => (Ok tt, {| _nproc_per_node := _nproc_per_node w; _nnodes := Some v;
                      _node := _node w; trace := trace w |}).

Definition set__node (v : Z) : M unit :=
  fun w => (Ok tt, {| _nproc_per_node := _nproc_per_node w; _nnodes := _nnodes w;
                      _node := Some v; trace := trace w |}).

Definition get {A} (field : world -> A) : M A := fun w => (Ok (field w), w).

(** An attribute that is still [None] cannot be a divisor. *)
Definition the (v : option Z) : M Z :=
  match v with
  | Some z => ret z
  | None => raise TypeError
  end.

Section Model.

Context `{self : ComputationModel}.

Definition _setup_attrs : M unit :=
  (cur <- get _nproc_per_node ;;
   match cur with
   | None =>
       v <- (if get_world_size >? 1
             then log Probe ;;; lift _compute_nproc_per_node
             else ret 1) ;;
       set__nproc_per_node v
   | Some _ => ret tt
   end) ;;;
  (cur <- get _nnodes ;;
   match cur with
   | None =>
       p <- bind (get _nproc_per_node) the ;;
       v <- lift (floordiv get_world_size p) ;;
       set__nnodes v
   | Some _ => ret tt
   end) ;;;
  (cur <- get _node ;;
   match cur with
   | None =>
       p <- bind (get _nproc_per_node) the ;;
       v <- lift (floordiv get_rank p) ;;
       set__node v
   | Some _ => ret tt
   end).

Definition decimal (n : Z) : string := NilZero.string_of_int (Z.to_int n).

Definition _encode_str (x : str) (device : torch.device) : M torch.Tensor :=
  let size := 1024 in
  x <- (if len x >? size
        then
          warn ("Input string size " ++ decimal (len x) ++ " is larger than "
                ++ decimal size ++ " and thus will be truncated")%string ;;;
          ret (slice_to x size)
        else ret x) ;;
  b <- lift (utf8.encode x) ;;
  name <- to (torch.tensor_bytearray b) None (Some device) ;;
  let padded_x := torch.zeros (Z.to_nat (size + 1)) device torch.long in
  n <- lift (torch.len name) ;;
  padded_x <- lift (torch.setitem_slice_to padded_x n name) ;;
  padded_x <- lift (torch.setitem_last padded_x (PyInt n)) ;;
  ret (torch.unsqueeze0 padded_x).

Definition _decode_str (xs : torch.Tensor) : res (list str) :=
  res_bind (torch.rows xs) (fun rs =>
  res_map (fun x =>
    res_bind (torch.last_index x) (fun k =>
    res_bind (bytearray (map torch.as_Z (torch.slice_tolist x k))) (fun b =>
    utf8.decode b))) rs).

Definition _apply_op (tensor : torch.Tensor) (device : torch.device)
    (fn : torch.Tensor -> M torch.Tensor) : M torch.Tensor :=
  st <- (if negb (torch.device_eqb (torch.tdevice tensor) device)
         then
           moved <- to tensor None (Some device) ;;
           ret (Some (torch.tdevice tensor), moved)
         else ret (None, tensor)) ;;
  let tensor_device := fst st in
  let tensor := snd st in
  st <- (match _collective_op_dtype with
         | Some cd =>
             if negb (torch.dtype_eqb (torch.tdtype tensor) torch.float32
                      || torch.dtype_eqb (torch.tdtype tensor) torch.float64)
             then
               casted <- to tensor (Some cd) None ;;
               ret (Some (torch.tdtype tensor), casted)
             else ret (None, tensor)
         | None => ret (None, tensor)
         end) ;;
  let out_dtype := fst st in
  let tensor := snd st in
  tensor <- fn tensor ;;
  match out_dtype, tensor_device with
  | Some d, Some dev => to tensor (Some d) (Some dev)
  | Some d, None => to tensor (Some d) None
  | None, Some dev => to tensor None (Some dev)
  | None, None => ret tensor
  end.

Definition _collective_op (tensor : pyobj) (fn : torch.Tensor -> M torch.Tensor)
    : M pyobj :=
  let device := device in
  match tensor with
  | Number x =>
      t <- lift (torch.tensor x device _collective_op_dtype) ;;
      t <- _apply_op t device fn ;;
      if torch.numel t =? 1
      then v <- lift (torch.item t) ;; ret (Number v)
      else ret (tolist t)
  | Str x =>
      t <- _encode_str x device ;;
      t <- _apply_op t device fn ;;
      l <- lift (_decode_str t) ;;
      ret (PyList (map Str l))
  | Tensor t =>
      t <- _apply_op t device fn ;;
      ret (Tensor t)
  | _ => raise AttributeError
  end.

Definition all_reduce (tensor : pyobj) (op : string) : M pyobj :=
  if negb (isinstance_Tensor tensor || isinstance_Number tensor)
  then raise TypeError
  else _collective_op tensor
         (call "_do_all_reduce" (fun t => _do_all_reduce t op)).

Definition all_gather (tensor : pyobj) : M pyobj :=
  if negb (isinstance_Tensor tensor || isinstance_Number tensor
           || isinstance_str tensor)
  then raise TypeError
  else _collective_op tensor (call "_do_all_gather" _do_all_gather).

Definition broadcast (tensor : pyobj) (src : Z) : M pyobj :=
  if negb (isinstance_Tensor tensor || isinstance_Number tensor
           || isinstance_str tensor)
  then raise TypeError
  else
    let rank := get_rank in
    let device := device in
    st <- (if negb (rank =? src) then
             match tensor with
             | Number _ =>
                 ret (true, false,
                      Ok (torch.empty [1%nat] device torch.float
                            (uninitialized [1%nat] torch.float)))
             | Str _ =>
                 ret (false, true,
                      Ok (torch.empty [1%nat; 1025%nat] device torch.long
                            (uninitialized [1%nat; 1025%nat] torch.long)))
             | Tensor t => ret (false, false, Ok t)
             | _ => ret (false, false, Raise AttributeError)
             end
           else
             match tensor with
             | Number x =>
                 t <- lift (torch.tensor_list [x] device torch.float) ;;
                 ret (true, false, Ok t)
             | Str x =>
                 t <- _encode_str x device ;;
                 ret (false, true, Ok t)
             | Tensor t => ret (false, false, Ok t)
             | _ => ret (false, false, Raise AttributeError)
             end) ;;
    let tensor_to_number := fst (fst st) in
    let tensor_to_str := snd (fst st) in
    t <- lift (snd st) ;;
    t <- _apply_op t device (call "_do_broadcast" (fun t => _do_broadcast t src)) ;;
    if tensor_to_number then v <- lift (torch.item t) ;; ret (Number v)
    else if tensor_to_str then
      list_str <- lift (_decode_str t) ;;
      match list_str with
      | s :: _ => ret (Str s)
      | [] => raise IndexError
      end
    else ret (Tensor t).

End Model.

(** ** _SerialModel *)

Module _SerialModel.

Definition get_local_rank : Z := 0.
Definition get_rank : Z := 0.
Definition get_world_size : Z := 1.
Definition get_nproc_per_node : Z := 1.
Definition get_nnodes : Z := 1.
Definition get_node_rank : Z := 0.

Definition device (cuda_is_available : bool) : torch.device :=
  if cuda_is_available then torch.cuda None else torch.cpu.

Definition backend : option string := None.

Definition _compute_nproc_per_node : Z := 1.

Definition spawn : res unit := Raise NotImplementedError.

Definition all_reduce (tensor : pyobj) (op : string) : pyobj := tensor.

Definition all_gather (tensor : pyobj) : pyobj :=
  if isinstance_Tensor tensor then tensor else PyList [tensor].

Definition broadcast (tensor : pyobj) (src : Z) : pyobj := tensor.

End _SerialModel.

(** ** Observations used in the statements *)

(** The world after further events. *)
Definition after (w : world) (evs : list event) : world :=
  {| _nproc_per_node := _nproc_per_node w; _nnodes := _nnodes w;
     _node := _node w; trace := trace w ++ evs |}.

(** The operands the backend primitives were invoked on, in order. *)
Definition seen_by_primitive (tr : list event) : list torch.Tensor :=
  flat_map (fun ev => match ev with Call _ t => [t] | _ => [] end) tr.

(** The events since the last call of a primitive (all of them if no
    primitive was called). *)
Fixpoint until_call (rev_tr : list event) : list event :=
  match rev_tr with
  | [] => []
  | Call _ _ :: _ => []
  | ev :: tr' => ev :: until_call tr'
  end.

Definition events_after_call (tr : list event) : list event :=
  rev (until_call (rev tr)).

Definition product (shape : list nat) : nat := fold_right Nat.mul 1%nat shape.

Section Adjustments.

Context `{self : ComputationModel}.

(** Whether [_apply_op] relocates, and whether it casts, the tensor [t]. *)
Definition relocates (t : torch.Tensor) (dev : torch.device) : bool :=
  negb (torch.device_eqb (torch.tdevice t) dev).

Definition upcasts (t : torch.Tensor) : bool :=
  match _collective_op_dtype with
  | Some _ =>
      negb (torch.dtype_eqb (torch.tdtype t) torch.float32
            || torch.dtype_eqb (torch.tdtype t) torch.float64)
  | None => false
  end.

(** The tensor [_apply_op] hands to the primitive. *)
Definition operand (t : torch.Tensor) (dev : torch.device) : torch.Tensor :=
  let moved := if relocates t dev then torch.to_ None (Some dev) t else t in
  if upcasts t then torch.to_ _collective_op_dtype None moved else moved.

Definition forward_events (t : torch.Tensor) (dev : torch.device) : list event :=
  (if relocates t dev then [To None (Some dev)] else [])
  ++ (if upcasts t then [To _collective_op_dtype None] else []).

(** The reversal applied to the primitive's result [r]. *)
Definition reversal (t : torch.Tensor) (dev : torch.device)
    : option (option torch.dtype * option torch.device) :=
  match upcasts t, relocates t dev with
  | true, true => Some (Some (torch.tdtype t), Some (torch.tdevice t))
  | true, false => Some (Some (torch.tdtype t), None)
  | false, true => Some (None, Some (torch.tdevice t))
  | false, false => None
  end.

Definition restored (t : torch.Tensor) (dev : torch.device) (r : torch.Tensor)
    : torch.Tensor :=
  match reversal t dev with
  | Some (dt, d) => torch.to_ dt d r
  | None => r
  end.

Definition backward_events (t : torch.Tensor) (dev : torch.device) : list event :=
  match reversal t dev with
  | Some (dt, d) => [To dt d]
  | None => []
  end.

(** The tensor [broadcast] builds for a number [x]. *)
Definition wire (x : number) (src : Z) : res torch.Tensor :=
  if get_rank =? src
  then torch.tensor_list [x] device torch.float
  else Ok (torch.empty [1%nat] device torch.float (uninitialized [1%nat] torch.float)).

End Adjustments.

(** A test double: a model whose three primitives all behave as [prim]. *)
Definition mock (rank world_size : Z) (dev : torch.device)
    (cd : option torch.dtype) (nproc : res Z)
    (prim : torch.Tensor -> res torch.Tensor) : ComputationModel :=
  {| get_rank := rank;
     get_world_size := world_size;
     device := dev;
     _collective_op_dtype := cd;
     _compute_nproc_per_node := nproc;
     _do_all_reduce := fun t _ => prim t;
     _do_all_gather := prim;
     _do_broadcast := fun t _ => prim t;
     uninitialized :=
       fun shape d => repeat (torch.cast d (PyInt 0)) (product shape) |}.

(** An [int64] tensor on the host and a [float16] one. *)
Definition int_tensor : torch.Tensor :=
  {| torch.tdtype := torch.int64; torch.tdevice := torch.cpu;
     torch.tshape := [2%nat]; torch.tdata := [PyInt 7; PyInt (-3)] |}.

Definition half_tensor : torch.Tensor :=
  {| torch.tdtype := torch.float16; torch.tdevice := torch.cpu;
     torch.tshape := [1%nat];
     torch.tdata := [PyFloat (S754_finite false 4503599627370496 (-52))] |}.

(** Test doubles: a two-process group whose primitives give the operand
    back, on the host and on an accelerator, and one whose primitives fail. *)
Definition host_model : ComputationModel :=
  mock 0 2 torch.cpu (Some torch.float32) (Ok 2) Ok.

Definition gpu_model : ComputationModel :=
  mock 0 2 (torch.cuda None) (Some torch.float32) (Ok 2) Ok.

Definition failing (t : torch.Tensor) : res torch.Tensor :=
  Raise (BackendError 1).

Definition failing_model : ComputationModel :=
  mock 0 2 (torch.cuda None) (Some torch.float32) (Ok 2) failing.

(** An emulated group of three processes seen from rank 1: the all-gather
    primitive returns the values of ranks 0, 1 and 2 in rank order, ranks 0
    and 2 contributing 10 and 30. *)
Definition gather3 (t : torch.Tensor) : res torch.Tensor :=
  Ok {| torch.tdtype := torch.tdtype t; torch.tdevice := torch.tdevice t;
        torch.tshape := [3%nat];
        torch.tdata := [torch.cast (torch.tdtype t) (PyInt 10)]
                       ++ torch.tdata t
                       ++ [torch.cast (torch.tdtype t) (PyInt 30)] |}.

Definition group3 : ComputationModel :=
  mock 1 3 torch.cpu (Some torch.float32) (Ok 3) gather3.

(** The same group with [float64] as collective dtype and primitives that
    give the operand back, as a broadcast does on the source rank. *)
Definition double_model : ComputationModel :=
  mock 1 3 torch.cpu (Some torch.float64) (Ok 3) Ok.

(** The encoded text buffer for the bytes [bs] of a string: a [(1, 1025)]
    tensor of [long] holding the bytes, zero padding, and the number of
    bytes in the last place. *)
Definition encoded (bs : list Z) (dev : torch.device) : torch.Tensor :=
  {| torch.tdtype := torch.long; torch.tdevice := dev;
     torch.tshape := [1%nat; 1025%nat];
     torch.tdata := map PyInt bs
                    ++ repeat (PyInt 0) (1024 - List.length bs)
                    ++ [PyInt (len bs)] |}.

(** The warning [_encode_str] gives for a string of [n] code points. *)
Definition truncation_warning (n : Z) : event :=
  Warn ("Input string size " ++ decimal n ++ " is larger than "
        ++ decimal 1024 ++ " and thus will be truncated")%string.

Definition is_ascii (x : str) : bool :=
  forallb (fun c => (0 <=? c) && (c <? 128)) x.

(** The string [_encode_str] encodes: the first 1024 code points of a
    longer one; and the warning it gives on the way. *)
Definition cut (x : str) : str :=
  if len x >? 1024 then slice_to x 1024 else x.

Definition cut_events (x : str) : list event :=
  if len x >? 1024 then [truncation_warning (len x)] else [].

(** The contents of one row of an encoded text batch. *)
Definition encoded_row (bs : list Z) : list number :=
  map PyInt bs ++ repeat (PyInt 0) (1024 - List.length bs) ++ [PyInt (len bs)].

(** A batch of encoded text buffers, one row for each list of bytes, as an
    all-gather of such buffers returns it. *)
Definition stack (rows : list (list Z)) (dev : torch.device) : torch.Tensor :=
  {| torch.tdtype := torch.long; torch.tdevice := dev;
     torch.tshape := [List.length rows; 1025%nat];
     torch.tdata := List.concat (map encoded_row rows) |}.

(** An emulated all-gather of text: the rows of the ranks before and after
    this one are put around the row the primitive is given, in its dtype. *)
Definition gather_text (before after : list (list Z)) (t : torch.Tensor)
    : res torch.Tensor :=
  Ok {| torch.tdtype := torch.tdtype t; torch.tdevice := torch.tdevice t;
        torch.tshape := [(List.length before + 1 + List.length after)%nat;
                         1025%nat];
        torch.tdata :=
          List.concat (map (fun bs => map (torch.cast (torch.tdtype t))
                                        (encoded_row bs)) before)
          ++ torch.tdata t
          ++ List.concat (map (fun bs => map (torch.cast (torch.tdtype t))
                                           (encoded_row bs)) after) |}.

(** Rank 1 of three processes that gather text; ranks 0 and 2 hold ["a"]
    and ["c"]. *)
Definition text_group : ComputationModel :=
  mock 1 3 torch.cpu (Some torch.float32) (Ok 3) (gather_text [[97]] [[99]]).

(** An emulated broadcast seen from a receiving rank: the primitive fills
    the tensor it is given with the source's encoded text. *)
Definition deliver (bs0 : list Z) (t : torch.Tensor) : res torch.Tensor :=
  Ok {| torch.tdtype := torch.tdtype t; torch.tdevice := torch.tdevice t;
        torch.tshape := torch.tshape t;
        torch.tdata := map (torch.cast (torch.tdtype t)) (encoded_row bs0) |}.

Definition receiving_model : ComputationModel :=
  mock 1 3 torch.cpu (Some torch.float32) (Ok 3) (deliver [104; 105]).


Section Kept.

Context `{self : ComputationModel}.

(** What [_apply_op] promises about its result [out], given the tensor [t]
    it was called with and the tensor [r] the primitive returned: the shape
    of [r]; the dtype of [t] if [t] was cast, else that of [r]; the device
    of [t] if [t] was relocated, else that of [r]. *)
Definition given_back (t r out : torch.Tensor) (dev : torch.device) : Prop :=
  torch.tshape out = torch.tshape r
  /\ torch.tdtype out = (if upcasts t then torch.tdtype t else torch.tdtype r)
  /\ torch.tdevice out
     = (if relocates t dev then torch.tdevice t else torch.tdevice r).

End Kept.

(** A group of one process without a collective dtype, whose primitives
    give the operand back. *)
Definition plain_model : ComputationModel :=
  mock 0 1 torch.cpu None (Ok 1) Ok.

(** * Properties *)

(** ** The monad *)

Lemma after_after (w : world) (a b : list event) :
  after (after w a) b = after w (a ++ b).
Proof. unfold after; simpl; now rewrite app_assoc. Qed.

Lemma log_run (ev : event) (w : world) : log ev w = (Ok tt, after w [ev]).
Proof. reflexivity. Qed.

Lemma to_run (t : torch.Tensor) dt dev (w : world) :
  to t dt dev w = (Ok (torch.to_ dt dev t), after w [To dt dev]).
Proof. reflexivity. Qed.

Lemma call_run (name : string) f (t : torch.Tensor) (w : world) :
  call name f t w = (f t, after w [Call name t]).
Proof. unfold call, bind, lift; now rewrite log_run. Qed.

(** ** _apply_op *)

Lemma tdtype_relocated (t : torch.Tensor) (dev : option torch.device) :
  torch.tdtype (torch.to_ None dev t) = torch.tdtype t.
Proof. reflexivity. Qed.

Section ApplyOp.

Context `{self : ComputationModel}.

(** [_apply_op] runs the forward conversions, calls the primitive once on
    [operand], and converts the result back only if the primitive returned. *)
Lemma _apply_op_run (t : torch.Tensor) (dev : torch.device) (name : string)
    (f : torch.Tensor -> res torch.Tensor) (w : world) :
  _apply_op t dev (call name f) w =
  match f (operand t dev) with
  | Ok r =>
      (Ok (restored t dev r),
       after w (forward_events t dev ++ [Call name (operand t dev)]
                ++ backward_events t dev))
  | Raise e =>
      (Raise e, after w (forward_events t dev ++ [Call name (operand t dev)]))
  end.
Proof.
  unfold _apply_op, operand, forward_events, restored, backward_events,
    reversal, upcasts, relocates.
  unfold bind, ret.
  destruct (negb (torch.device_eqb (torch.tdevice t) dev));
    rewrite ?to_run; cbn [fst snd]; rewrite ?tdtype_relocated;
    (destruct _collective_op_dtype as [cd|];
     [ destruct (negb (torch.dtype_eqb (torch.tdtype t) torch.float32
                       || torch.dtype_eqb (torch.tdtype t) torch.float64)) | ]);
    rewrite ?to_run; cbn [fst snd]; rewrite call_run;
    destruct (f _); rewrite ?to_run, ?after_after; reflexivity.
Qed.

End ApplyOp.

(** ** Topology derivation *)

Section Topology.

Context `{self : ComputationModel}.

(** C4.  Starting from unresolved fields, [_setup_attrs] takes
    [nproc_per_node] to be [1] without probing when [world_size <= 1], and
    the result of one probe when [world_size > 1]; then
    [nnodes = world_size // nproc_per_node] and
    [node_rank = rank // nproc_per_node].  With [world_size = 8],
    [nproc_per_node = 4] and [rank = 5] this gives [nnodes = 2] and
    [node_rank = 1]; with [world_size = 7] it gives [nnodes = 1]. *)
Theorem setup_attrs_topology (tr : list event) :
  (get_world_size <= 1 ->
   _setup_attrs (mkWorld None None None tr)
   = (Ok tt, mkWorld (Some 1) (Some get_world_size) (Some get_rank) tr))
  /\ (forall p : Z,
        1 < get_world_size -> _compute_nproc_per_node = Ok p -> p <> 0 ->
        _setup_attrs (mkWorld None None None tr)
        = (Ok tt, mkWorld (Some p) (Some (get_world_size / p))
                    (Some (get_rank / p)) (tr ++ [Probe])))
  /\ _setup_attrs (self := mock 5 8 torch.cpu None (Ok 4) Ok) __init__
     = (Ok tt, mkWorld (Some 4) (Some 2) (Some 1) [Probe])
  /\ _setup_attrs (self := mock 5 7 torch.cpu None (Ok 4) Ok) __init__
     = (Ok tt, mkWorld (Some 4) (Some 1) (Some 1) [Probe]).
Proof.
  split; [| split; [| split; reflexivity]].
  - intros Hws. unfold _setup_attrs, bind, get, ret; cbn.
    replace (get_world_size >? 1) with false
      by (symmetry; rewrite Z.gtb_ltb; apply Z.ltb_ge; lia).
    cbn. unfold lift, floordiv; cbn. now rewrite !Z.div_1_r.
  - intros p Hws Hp Hnz. unfold _setup_attrs, bind, get, ret; cbn.
    replace (get_world_size >? 1) with true
      by (symmetry; rewrite Z.gtb_ltb; apply Z.ltb_lt; lia).
    unfold lift. rewrite Hp. cbn.
    unfold floordiv. apply Z.eqb_neq in Hnz.
    repeat (rewrite Hnz; cbn). reflexivity.
Qed.

(** C9.  [_setup_attrs] never overwrites a resolved field, whatever its
    outcome; after a successful run all three fields are resolved, and on
    resolved fields a further run changes nothing and probes nothing. *)
Theorem setup_attrs_writes_once (w w' : world) (r : res unit) :
  _setup_attrs w = (r, w') ->
  (forall v, _nproc_per_node w = Some v -> _nproc_per_node w' = Some v)
  /\ (forall v, _nnodes w = Some v -> _nnodes w' = Some v)
  /\ (forall v, _node w = Some v -> _node w' = Some v)
  /\ (r = Ok tt -> _setup_attrs w' = (Ok tt, w')).
Proof.
  destruct w as [a b c tr].
  unfold _setup_attrs, bind, get, ret, the, lift, raise, floordiv; cbn.
  repeat (match goal with
          | |- context [match ?o with Some _ => _ | None => _ end] =>
              is_var o; destruct o
          | |- context [get_world_size >? 1] => destruct (get_world_size >? 1)
          | |- context [_compute_nproc_per_node] =>
              destruct _compute_nproc_per_node
          | H : (?x =? 0) = _ |- context [?x =? 0] => rewrite H
          | |- context [?x =? 0] => destruct (x =? 0) eqn:?
          end; cbn);
    intros Hrun; inversion Hrun; subst; cbn;
    (repeat split; intros; try congruence; try discriminate);
    cbn; repeat (match goal with
                 | H : (?x =? 0) = _ |- context [?x =? 0] => rewrite H
                 end; cbn); reflexivity.
Qed.

End Topology.

Lemma setup_attrs_topology_witness :
  _setup_attrs (self := mock 0 1 torch.cpu None (Raise (BackendError 1)) Ok)
    __init__
  = (Ok tt, mkWorld (Some 1) (Some 1) (Some 0) [])
  /\ _setup_attrs (self := mock 5 8 torch.cpu None (Ok 4) Ok) __init__
     = (Ok tt, mkWorld (Some 4) (Some (8 / 4)) (Some (5 / 4)) [Probe]).
Proof.
  split.
  - apply (proj1 (setup_attrs_topology
                    (self := mock 0 1 torch.cpu None (Raise (BackendError 1)) Ok)
                    [])).
    simpl. lia.
  - apply (proj1 (proj2 (setup_attrs_topology
                           (self := mock 5 8 torch.cpu None (Ok 4) Ok) [])) 4).
    + simpl. lia.
    + reflexivity.
    + lia.
Defined.

Lemma setup_attrs_writes_once_witness :
  (_setup_attrs (self := mock 5 8 torch.cpu None (Ok 4) Ok)
     (mkWorld None (Some 3) None [])
   = (Ok tt, mkWorld (Some 4) (Some 3) (Some 1) [Probe])
   /\ _nnodes (mkWorld (Some 4) (Some 3) (Some 1) [Probe]) = Some 3
   /\ _setup_attrs (self := mock 5 8 torch.cpu None (Ok 4) Ok)
        (mkWorld (Some 4) (Some 3) (Some 1) [Probe])
      = (Ok tt, mkWorld (Some 4) (Some 3) (Some 1) [Probe]))
  /\ (_setup_attrs (self := mock 5 8 torch.cpu None (Ok 4) Ok)
        (mkWorld (Some 4) None (Some 9) [])
      = (Ok tt, mkWorld (Some 4) (Some 2) (Some 9) [])
      /\ _nproc_per_node (mkWorld (Some 4) (Some 2) (Some 9) []) = Some 4
      /\ _node (mkWorld (Some 4) (Some 2) (Some 9) []) = Some 9).
Proof.
  split.
  - destruct (setup_attrs_writes_once
                (self := mock 5 8 torch.cpu None (Ok 4) Ok)
                (mkWorld None (Some 3) None [])
                (mkWorld (Some 4) (Some 3) (Some 1) [Probe]) (Ok tt) eq_refl)
      as [_ [Hnnodes [_ Hagain]]].
    split; [reflexivity|]. split; [exact (Hnnodes 3 eq_refl)|].
    exact (Hagain eq_refl).
  - destruct (setup_attrs_writes_once
                (self := mock 5 8 torch.cpu None (Ok 4) Ok)
                (mkWorld (Some 4) None (Some 9) [])
                (mkWorld (Some 4) (Some 2) (Some 9) []) (Ok tt) eq_refl)
      as [Hnproc [_ [Hnode _]]].
    split; [reflexivity|]. split; [exact (Hnproc 4 eq_refl)|].
    exact (Hnode 9 eq_refl).
Defined.

(** ** Operand kinds *)

(** C6.  An operand that is neither a tensor nor a number makes
    [all_reduce] raise [TypeError] at once: the world is unchanged, so no
    primitive was invoked and nothing else happened. *)
Theorem all_reduce_unsupported_kind `{self : ComputationModel}
    (x : pyobj) (op : string) (w : world) :
  isinstance_Tensor x = false ->
  isinstance_Number x = false ->
  all_reduce x op w = (Raise TypeError, w)
  /\ seen_by_primitive (trace (snd (all_reduce x op w)))
     = seen_by_primitive (trace w).
Proof.
  intros Ht Hn. unfold all_reduce. rewrite Ht, Hn. cbn. split; reflexivity.
Qed.

Lemma all_reduce_unsupported_kind_witness :
  all_reduce (self := mock 0 2 torch.cpu None (Ok 2) Ok)
    (PyDict [(Str [107], Number (PyInt 1))]) "sum" __init__
  = (Raise TypeError, __init__)
  /\ seen_by_primitive
       (trace (snd (all_reduce (self := mock 0 2 torch.cpu None (Ok 2) Ok)
                      (PyDict [(Str [107], Number (PyInt 1))]) "sum" __init__)))
     = seen_by_primitive (trace __init__).
Proof.
  apply (all_reduce_unsupported_kind
           (self := mock 0 2 torch.cpu None (Ok 2) Ok)
           (PyDict [(Str [107], Number (PyInt 1))]) "sum" __init__);
    reflexivity.
Defined.

(** C7.  The collectives of [_SerialModel] return their input: [all_reduce]
    and [broadcast] for every operand, [all_gather] for a tensor, while
    [all_gather] wraps a number or a string in a one-element list. *)
Theorem serial_collectives_identity (x : pyobj) (n : number) (s : str)
    (t : torch.Tensor) (op : string) :
  _SerialModel.all_reduce x op = x
  /\ _SerialModel.broadcast x 0 = x
  /\ _SerialModel.all_gather (Number n) = PyList [Number n]
  /\ _SerialModel.all_gather (Str s) = PyList [Str s]
  /\ _SerialModel.all_gather (Tensor t) = Tensor t.
Proof. repeat split. Qed.

(** ** Casting around the primitive *)

Lemma dtype_eqb_refl (d : torch.dtype) : torch.dtype_eqb d d = true.
Proof. now destruct d. Qed.

Lemma dtype_eqb_eq (a b : torch.dtype) : torch.dtype_eqb a b = true -> a = b.
Proof. destruct a, b; simpl; congruence. Qed.

Lemma device_eqb_refl (d : torch.device) : torch.device_eqb d d = true.
Proof. destruct d as [|[i|]|i]; simpl; auto using Nat.eqb_refl. Qed.

Lemma seen_by_primitive_app (a b : list event) :
  seen_by_primitive (a ++ b) = seen_by_primitive a ++ seen_by_primitive b.
Proof. unfold seen_by_primitive. apply flat_map_app. Qed.

Lemma events_after_call_last (tr : list event) (name : string) (t : torch.Tensor) :
  events_after_call (tr ++ [Call name t]) = [].
Proof. unfold events_after_call. now rewrite rev_app_distr. Qed.

Section Casting.

Context `{self : ComputationModel}.

Lemma seen_forward (t : torch.Tensor) (dev : torch.device) :
  seen_by_primitive (forward_events t dev) = [].
Proof.
  unfold forward_events.
  now destruct (relocates t dev), (upcasts t).
Qed.

Lemma seen_backward (t : torch.Tensor) (dev : torch.device) :
  seen_by_primitive (backward_events t dev) = [].
Proof.
  unfold backward_events, reversal.
  now destruct (relocates t dev), (upcasts t).
Qed.

(** Whatever the primitive does, it is invoked exactly once, on [operand]. *)
Lemma _apply_op_seen (t : torch.Tensor) (dev : torch.device) (name : string)
    (f : torch.Tensor -> res torch.Tensor) (w : world) :
  seen_by_primitive (trace (snd (_apply_op t dev (call name f) w)))
  = seen_by_primitive (trace w) ++ [operand t dev].
Proof.
  rewrite _apply_op_run.
  destruct (f (operand t dev)); cbn [snd after trace];
    rewrite !seen_by_primitive_app, seen_forward, ?seen_backward;
    cbn; now rewrite ?app_nil_r.
Qed.

Lemma tdtype_operand (t : torch.Tensor) (dev : torch.device) :
  torch.tdtype (operand t dev)
  = if upcasts t
    then match _collective_op_dtype with Some cd => cd | None => torch.tdtype t end
    else torch.tdtype t.
Proof.
  unfold operand.
  destruct (upcasts t), (relocates t dev), _collective_op_dtype; reflexivity.
Qed.

Lemma tdtype_restored (t r : torch.Tensor) (dev : torch.device) :
  upcasts t = true -> torch.tdtype (restored t dev r) = torch.tdtype t.
Proof.
  intros Hu. unfold restored, reversal. rewrite Hu.
  now destruct (relocates t dev).
Qed.

(** C2, as the code has it.  With a collective dtype [cd] configured,
    [_apply_op] invokes the primitive once, on a tensor whose dtype is [cd]
    unless the input's dtype is [float32] or [float64], in which case it is
    left as it is (so [float16] and [bfloat16] inputs are cast as well).
    For an input of integer dtype the primitive sees dtype [cd] only, and
    the result it returns is given back with the input's integer dtype. *)
Theorem apply_op_casting (cd : torch.dtype) (t : torch.Tensor)
    (dev : torch.device) (name : string)
    (f : torch.Tensor -> res torch.Tensor) (w : world) :
  _collective_op_dtype = Some cd ->
  seen_by_primitive (trace (snd (_apply_op t dev (call name f) w)))
  = seen_by_primitive (trace w) ++ [operand t dev]
  /\ torch.tdtype (operand t dev)
     = (if torch.dtype_eqb (torch.tdtype t) torch.float32
           || torch.dtype_eqb (torch.tdtype t) torch.float64
        then torch.tdtype t else cd)
  /\ (torch.is_integer (torch.tdtype t) = true ->
      torch.tdtype (operand t dev) = cd
      /\ forall r, f (operand t dev) = Ok r ->
           exists out, fst (_apply_op t dev (call name f) w) = Ok out
                       /\ torch.tdtype out = torch.tdtype t).
Proof.
  intros Hcd.
  assert (Hup : upcasts t
                = negb (torch.dtype_eqb (torch.tdtype t) torch.float32
                        || torch.dtype_eqb (torch.tdtype t) torch.float64))
    by (unfold upcasts; now rewrite Hcd).
  split; [apply _apply_op_seen|].
  split.
  - rewrite tdtype_operand, Hup, Hcd.
    now destruct (torch.dtype_eqb (torch.tdtype t) torch.float32
                  || torch.dtype_eqb (torch.tdtype t) torch.float64).
  - intros Hint.
    assert (Hu : upcasts t = true)
      by (rewrite Hup; destruct (torch.tdtype t); simpl in *; congruence).
    split.
    + now rewrite tdtype_operand, Hu, Hcd.
    + intros r Hr. exists (restored t dev r).
      rewrite _apply_op_run, Hr. cbn [fst]. split; [reflexivity|].
      now apply tdtype_restored.
Qed.

(** C3, as the code has it.  When the primitive raises, [_apply_op] gives
    the same exception to its caller and does nothing more: the call is the
    last event, no conversion back follows it.  (The conversions build new
    tensors; the caller's tensor is a value that is never modified.) *)
Theorem apply_op_raise_no_reversal (t : torch.Tensor) (dev : torch.device)
    (name : string) (f : torch.Tensor -> res torch.Tensor) (w : world)
    (e : exn) :
  f (operand t dev) = Raise e ->
  _apply_op t dev (call name f) w
  = (Raise e, after w (forward_events t dev ++ [Call name (operand t dev)]))
  /\ events_after_call (trace (snd (_apply_op t dev (call name f) w))) = [].
Proof.
  intros Hf. rewrite _apply_op_run, Hf. split; [reflexivity|].
  cbn [snd after trace]. rewrite app_assoc. apply events_after_call_last.
Qed.

End Casting.

Lemma apply_op_casting_witness :
  seen_by_primitive
    (trace (snd (_apply_op (self := gpu_model) int_tensor (torch.cuda None)
                   (call "fn" Ok) __init__)))
  = [ {| torch.tdtype := torch.float32; torch.tdevice := torch.cuda None;
         torch.tshape := [2%nat];
         torch.tdata := [torch.cast torch.float32 (PyInt 7);
                         torch.cast torch.float32 (PyInt (-3))] |} ]
  /\ torch.tdtype (operand (self := gpu_model) int_tensor (torch.cuda None))
     = torch.float32
  /\ exists out,
       fst (_apply_op (self := gpu_model) int_tensor (torch.cuda None)
              (call "fn" Ok) __init__) = Ok out
       /\ torch.tdtype out = torch.int64.
Proof.
  destruct (apply_op_casting (self := gpu_model) torch.float32 int_tensor
              (torch.cuda None) "fn" Ok __init__ eq_refl)
    as [Hseen [_ Hint]].
  destruct (Hint eq_refl) as [Hop Hout].
  split; [exact Hseen|]. split; [exact Hop|].
  exact (Hout _ eq_refl).
Defined.

(** C2 as stated fails: a [float16] tensor is of a floating type, and is
    cast to the collective dtype all the same. *)
Lemma apply_op_casts_float16 :
  torch.is_floating_point (torch.tdtype half_tensor) = true
  /\ map torch.tdtype
       (seen_by_primitive
          (trace (snd (_apply_op (self := host_model) half_tensor torch.cpu
                         (call "fn" Ok) __init__))))
     = [torch.float32]
  /\ map (fun ev => match ev with Call _ _ => None | _ => Some ev end)
       (trace (snd (_apply_op (self := host_model) half_tensor torch.cpu
                      (call "fn" Ok) __init__)))
     = [Some (To (Some torch.float32) None); None;
        Some (To (Some torch.float16) None)].
Proof. repeat split. Qed.

Lemma apply_op_raise_no_reversal_witness :
  _apply_op (self := failing_model) int_tensor (torch.cuda None)
    (call "fn" failing) __init__
  = (Raise (BackendError 1),
     after __init__
       [To None (Some (torch.cuda None)); To (Some torch.float32) None;
        Call "fn" (operand (self := failing_model) int_tensor (torch.cuda None))])
  /\ events_after_call
       (trace (snd (_apply_op (self := failing_model) int_tensor
                      (torch.cuda None) (call "fn" failing) __init__))) = [].
Proof.
  exact (apply_op_raise_no_reversal (self := failing_model) int_tensor
           (torch.cuda None) "fn" failing __init__ (BackendError 1) eq_refl).
Defined.

(** C3 as stated fails: the tensor was relocated and cast, the primitive
    raised, and no conversion back was attempted. *)
Lemma apply_op_raise_skips_reversal :
  fst (_apply_op (self := failing_model) int_tensor (torch.cuda None)
         (call "fn" failing) __init__)
  = Raise (BackendError 1)
  /\ firstn 2 (trace (snd (_apply_op (self := failing_model) int_tensor
                             (torch.cuda None) (call "fn" failing) __init__)))
     = [To None (Some (torch.cuda None)); To (Some torch.float32) None]
  /\ List.length (trace (snd (_apply_op (self := failing_model) int_tensor
                                (torch.cuda None) (call "fn" failing) __init__)))
     = 3%nat
  /\ events_after_call
       (trace (snd (_apply_op (self := failing_model) int_tensor
                      (torch.cuda None) (call "fn" failing) __init__))) = [].
Proof. repeat split. Qed.

(** ** Scalars *)

Lemma to_same_dtype (t : torch.Tensor) :
  torch.to_ (Some (torch.tdtype t)) None t = t.
Proof.
  destruct t as [d dev sh dat]. unfold torch.to_. cbn.
  now rewrite dtype_eqb_refl.
Qed.

Lemma store_ok (d : torch.dtype) (x e : number) :
  torch.store d x = Ok e -> e = torch.cast d x.
Proof.
  unfold torch.store. destruct x as [z|b|f]; try congruence.
  destruct (torch.is_floating_point d).
  - destruct (torch.double_of_Z z); congruence.
  - destruct ((z <? - 2 ^ 63) || (2 ^ 63 <=? z)); congruence.
Qed.

Lemma tensor_scalar (x : number) (dev : torch.device) (dt : option torch.dtype)
    (t0 : torch.Tensor) :
  torch.tensor x dev dt = Ok t0 ->
  t0 = {| torch.tdtype := match dt with
                          | Some d => d
                          | None => torch.infer_dtype x
                          end;
          torch.tdevice := dev; torch.tshape := [];
          torch.tdata := [torch.cast (match dt with
                                      | Some d => d
                                      | None => torch.infer_dtype x
                                      end) x] |}.
Proof.
  unfold torch.tensor, res_bind.
  destruct (torch.store _ x) as [e|] eqn:E; [|discriminate].
  apply store_ok in E. subst e. congruence.
Qed.

Lemma tensor_list_one (x : number) (dev : torch.device) (d : torch.dtype)
    (t0 : torch.Tensor) :
  torch.tensor_list [x] dev d = Ok t0 ->
  t0 = {| torch.tdtype := d; torch.tdevice := dev; torch.tshape := [1%nat];
          torch.tdata := [torch.cast d x] |}.
Proof.
  unfold torch.tensor_list, res_bind. cbn [res_map]. unfold res_bind.
  destruct (torch.store d x) as [e|] eqn:E; [|discriminate].
  apply store_ok in E. subst e. cbn. congruence.
Qed.

Lemma chunks_one (n : nat) (data : list number) :
  List.length data = n ->
  map (tolist_aux []) (torch.chunks n 1 data) = map Number data.
Proof.
  revert data. induction n as [|n IH]; intros [|x data] Hlen;
    try discriminate; [reflexivity|].
  cbn. f_equal. apply IH. now inversion Hlen.
Qed.

(** [tolist] of a one-dimensional tensor is the list of its elements. *)
Lemma tolist_1d (t : torch.Tensor) (n : nat) :
  torch.tshape t = [n] -> List.length (torch.tdata t) = n ->
  tolist t = PyList (map Number (torch.tdata t)).
Proof.
  intros Hs Hl. unfold tolist. rewrite Hs. cbn [tolist_aux fold_right].
  now rewrite chunks_one.
Qed.

Section Scalars.

Context `{self : ComputationModel}.

(** A tensor that is already on the model's device and has the dtype that
    [_apply_op] would give it goes to the primitive as it is. *)
Lemma operand_in_place (t : torch.Tensor) :
  torch.tdevice t = device ->
  (forall cd, _collective_op_dtype = Some cd ->
              torch.tdtype t = cd \/ upcasts t = false) ->
  operand t device = t.
Proof.
  intros Hdev Hdt. unfold operand, relocates.
  rewrite Hdev, device_eqb_refl. cbn [negb].
  destruct (upcasts t) eqn:Hu; [|reflexivity].
  unfold upcasts in Hu. destruct _collective_op_dtype as [cd|]; [|discriminate].
  destruct (Hdt cd eq_refl) as [<-|Hf].
  - apply to_same_dtype.
  - unfold upcasts in Hf. congruence.
Qed.

Lemma operand_scalar (x : number) (t0 : torch.Tensor) :
  torch.tensor x device _collective_op_dtype = Ok t0 ->
  operand t0 device = t0.
Proof.
  intros Ht. apply tensor_scalar in Ht. apply operand_in_place.
  - now subst t0.
  - intros cd Hcd. left. rewrite Hcd in Ht. now subst t0.
Qed.

(** C8.  [_collective_op] wraps a number [x] as a tensor [t0] of no
    dimension and one element, of the collective dtype when one is
    configured, and the primitive is invoked on [t0].  If the tensor that
    comes back has one element the result is a scalar; otherwise it is
    [tolist], which for a one-dimensional tensor is the sequence of its
    elements.  In an emulated group of three processes [all_gather] of a
    scalar gives the three values in rank order. *)
Theorem collective_op_scalar (x : number) (name : string)
    (f : torch.Tensor -> res torch.Tensor) (w : world) (t0 r : torch.Tensor) :
  torch.tensor x device _collective_op_dtype = Ok t0 ->
  f t0 = Ok r ->
  (torch.numel t0 = 1
   /\ torch.tdata t0 = [torch.cast (torch.tdtype t0) x]
   /\ forall cd, _collective_op_dtype = Some cd -> torch.tdtype t0 = cd)
  /\ seen_by_primitive
       (trace (snd (_collective_op (Number x) (call name f) w)))
     = seen_by_primitive (trace w) ++ [t0]
  /\ (torch.numel (restored t0 device r) = 1 ->
      torch.well_formed (restored t0 device r) = true ->
      exists v, torch.tdata (restored t0 device r) = [v]
                /\ fst (_collective_op (Number x) (call name f) w)
                   = Ok (Number v))
  /\ (torch.numel (restored t0 device r) <> 1 ->
      fst (_collective_op (Number x) (call name f) w)
      = Ok (tolist (restored t0 device r)))
  /\ (forall n : nat,
        torch.tshape (restored t0 device r) = [n] ->
        List.length (torch.tdata (restored t0 device r)) = n ->
        tolist (restored t0 device r)
        = PyList (map Number (torch.tdata (restored t0 device r))))
  /\ fst (all_gather (self := group3) (Number (PyInt 20)) __init__)
     = Ok (PyList [Number (torch.cast torch.float32 (PyInt 10));
                   Number (torch.cast torch.float32 (PyInt 20));
                   Number (torch.cast torch.float32 (PyInt 30))]).
Proof.
  intros Ht Hf.
  pose proof (operand_scalar _ _ Ht) as Hop.
  pose proof (tensor_scalar _ _ _ _ Ht) as Hshape.
  assert (Hrun : _collective_op (Number x) (call name f) w
                 = bind (_apply_op t0 device (call name f))
                     (fun t => if torch.numel t =? 1
                               then bind (lift (torch.item t))
                                      (fun v => ret (Number v))
                               else ret (tolist t)) w).
  { unfold _collective_op. unfold bind at 1. unfold lift at 1.
    now rewrite Ht. }
  assert (Hfst : fst (_collective_op (Number x) (call name f) w)
                 = if torch.numel (restored t0 device r) =? 1
                   then res_bind (torch.item (restored t0 device r))
                          (fun v => Ok (Number v))
                   else Ok (tolist (restored t0 device r))).
  { rewrite Hrun. unfold bind at 1. rewrite _apply_op_run, Hop, Hf.
    destruct (torch.numel (restored t0 device r) =? 1); [|reflexivity].
    unfold bind, lift, ret.
    now destruct (torch.item (restored t0 device r)). }
  repeat apply conj.
  - subst t0. reflexivity.
  - subst t0. reflexivity.
  - intros cd Hcd. rewrite Hcd in Hshape. now subst t0.
  - rewrite Hrun. unfold bind at 1.
    pose proof (_apply_op_seen t0 device name f w) as Hseen.
    rewrite Hop in Hseen.
    destruct (_apply_op t0 device (call name f) w) as [[t|e] w1];
      cbn [snd] in *; [|exact Hseen].
    destruct (torch.numel t =? 1); [|exact Hseen].
    unfold bind, lift, ret. now destruct (torch.item t).
  - intros Hn Hwf. rewrite Hfst, Hn. cbn.
    unfold torch.well_formed in Hwf. apply andb_prop in Hwf as [Hlen _].
    apply Nat.eqb_eq in Hlen.
    unfold torch.numel in Hn. unfold torch.item, torch.numel.
    destruct (torch.tdata (restored t0 device r)) as [|v [|v' l]];
      cbn in Hlen; try lia.
    exists v. split; [reflexivity|].
    replace (Z.of_nat (fold_right Nat.mul 1%nat
                         (torch.tshape (restored t0 device r))) =? 1)
      with true by (symmetry; apply Z.eqb_eq; lia).
    reflexivity.
  - intros Hn. rewrite Hfst. apply Z.eqb_neq in Hn. now rewrite Hn.
  - intros n Hs Hl. now apply tolist_1d with n.
  - reflexivity.
Qed.

End Scalars.

Lemma collective_op_scalar_witness :
  (seen_by_primitive
     (trace (snd (_collective_op (self := group3) (Number (PyInt 20))
                    (call "_do_all_gather" gather3) __init__)))
   = [ {| torch.tdtype := torch.float32; torch.tdevice := torch.cpu;
          torch.tshape := [];
          torch.tdata := [torch.cast torch.float32 (PyInt 20)] |} ]
   /\ fst (_collective_op (self := group3) (Number (PyInt 20))
             (call "_do_all_gather" gather3) __init__)
      = Ok (PyList [Number (torch.cast torch.float32 (PyInt 10));
                    Number (torch.cast torch.float32 (PyInt 20));
                    Number (torch.cast torch.float32 (PyInt 30))]))
  /\ exists v,
       fst (_collective_op (self := host_model) (Number (PyInt 20))
              (call "_do_all_gather" Ok) __init__)
       = Ok (Number v).
Proof.
  split.
  - destruct (collective_op_scalar (self := group3) (PyInt 20)
                "_do_all_gather" gather3 __init__ _ _ eq_refl eq_refl)
      as [_ [Hseen [_ [Hlist [H1d _]]]]].
    split; [exact Hseen|].
    rewrite Hlist by (vm_compute; discriminate).
    rewrite (H1d 3%nat eq_refl eq_refl). reflexivity.
  - destruct (collective_op_scalar (self := host_model) (PyInt 20)
                "_do_all_gather" Ok __init__ _ _ eq_refl eq_refl)
      as [_ [_ [Hone _]]].
    destruct (Hone eq_refl eq_refl) as [v [_ Hv]].
    exists v. exact Hv.
Defined.

(** ** Broadcast of a number *)

Section BroadcastNumber.

Context `{self : ComputationModel}.

Lemma operand_float32 (t : torch.Tensor) :
  torch.tdevice t = device -> torch.tdtype t = torch.float32 ->
  relocates t device = false /\ upcasts t = false.
Proof.
  intros Hdev Hdt. unfold relocates, upcasts.
  rewrite Hdev, Hdt, device_eqb_refl.
  now destruct _collective_op_dtype.
Qed.

Lemma _apply_op_float32 (t : torch.Tensor) (name : string)
    (f : torch.Tensor -> res torch.Tensor) (w : world) :
  torch.tdevice t = device -> torch.tdtype t = torch.float32 ->
  _apply_op t device (call name f) w = (f t, after w [Call name t]).
Proof.
  intros Hdev Hdt. destruct (operand_float32 t Hdev Hdt) as [Hr Hu].
  rewrite _apply_op_run.
  unfold operand, forward_events, restored, backward_events, reversal.
  rewrite Hr, Hu. cbn [app]. now destruct (f t).
Qed.

(** C10.  For a number [x], [broadcast] hands the primitive one tensor,
    of dtype [float32] and shape [(1,)], on the source rank (where it holds
    [x] rounded to [float32]) and on the other ranks alike, whatever the
    collective dtype is, and converts nothing; the result is [item()] of
    what the primitive returns, a [float] whenever that tensor is of a
    floating dtype.  So on the source rank 16777217 comes back as
    16777216.0 and 3 as 3.0. *)
Theorem broadcast_number_float32 (x : number) (src : Z) (w : world)
    (t0 : torch.Tensor) :
  wire x src = Ok t0 ->
  (torch.tdtype t0 = torch.float32 /\ torch.tshape t0 = [1%nat]
   /\ (get_rank = src -> torch.tdata t0 = [torch.cast torch.float32 x]))
  /\ broadcast (Number x) src w
     = (res_bind (_do_broadcast t0 src)
          (fun r => res_bind (torch.item r) (fun v => Ok (Number v))),
        after w [Call "_do_broadcast" t0])
  /\ (forall r v,
        _do_broadcast t0 src = Ok r ->
        torch.well_formed r = true ->
        torch.is_floating_point (torch.tdtype r) = true ->
        torch.item r = Ok v ->
        exists f, v = PyFloat f)
  /\ fst (broadcast (self := double_model) (Number (PyInt 16777217)) 1 __init__)
     = Ok (Number (PyFloat (torch.double_of_Z 16777216)))
  /\ fst (broadcast (self := double_model) (Number (PyInt 3)) 1 __init__)
     = Ok (Number (PyFloat (torch.double_of_Z 3))).
Proof.
  intros Hwire.
  assert (Ht0 : torch.tdtype t0 = torch.float32 /\ torch.tshape t0 = [1%nat]
                /\ torch.tdevice t0 = device
                /\ (get_rank = src ->
                    torch.tdata t0 = [torch.cast torch.float32 x])).
  { unfold wire in Hwire. destruct (get_rank =? src) eqn:Hsrc.
    - apply tensor_list_one in Hwire. subst t0. repeat split.
    - inversion Hwire; subst t0. repeat split.
      intros Heq. apply Z.eqb_neq in Hsrc. contradiction. }
  destruct Ht0 as [Hdt [Hsh [Hdev Hdata]]].
  repeat apply conj; auto.
  - unfold broadcast. cbn [isinstance_Tensor isinstance_Number isinstance_str
                             orb negb].
    unfold wire in Hwire. unfold bind at 1.
    destruct (get_rank =? src); cbn [negb].
    + unfold bind at 1. unfold lift at 1. rewrite Hwire. unfold ret.
      cbn [fst snd]. unfold bind at 1. unfold lift at 1. unfold bind at 1.
      rewrite _apply_op_float32 by assumption.
      destruct (_do_broadcast t0 src) as [r|e]; [|reflexivity].
      cbn [res_bind]. unfold bind, lift, ret.
      now destruct (torch.item r).
    + unfold ret. cbn [fst snd]. inversion Hwire as [Heq]. rewrite Heq.
      unfold bind at 1. unfold lift at 1. unfold bind at 1.
      rewrite _apply_op_float32 by assumption.
      destruct (_do_broadcast t0 src) as [r|e]; [|reflexivity].
      cbn [res_bind]. unfold bind, lift, ret.
      now destruct (torch.item r).
  - intros r v _ Hwf Hfl Hitem.
    unfold torch.item in Hitem.
    destruct (torch.tdata r) as [|v0 [|v1 l]] eqn:Hd; try discriminate.
    destruct (torch.numel r =? 1); [|discriminate].
    inversion Hitem; subst v0.
    unfold torch.well_formed in Hwf. rewrite Hd in Hwf.
    apply andb_prop in Hwf as [_ Hall]. cbn in Hall.
    apply andb_prop in Hall as [Hv _].
    destruct v as [z|b|f]; cbn in Hv.
    + destruct (torch.tdtype r); discriminate.
    + destruct (torch.tdtype r); discriminate.
    + now exists f.
Qed.

End BroadcastNumber.

Lemma broadcast_number_float32_witness :
  (broadcast (self := double_model) (Number (PyInt 16777217)) 1 __init__
   = (Ok (Number (PyFloat (torch.double_of_Z 16777216))),
      after __init__
        [Call "_do_broadcast"
           {| torch.tdtype := torch.float32; torch.tdevice := torch.cpu;
              torch.tshape := [1%nat];
              torch.tdata := [PyFloat (torch.double_of_Z 16777216)] |}])
   /\ exists f, PyFloat (torch.double_of_Z 16777216) = PyFloat f)
  /\ seen_by_primitive
       (trace (snd (broadcast (self := double_model) (Number (PyInt 5)) 0
                      __init__)))
     = [ {| torch.tdtype := torch.float32; torch.tdevice := torch.cpu;
            torch.tshape := [1%nat];
            torch.tdata := [PyFloat (S754_zero false)] |} ].
Proof.
  split.
  - destruct (broadcast_number_float32 (self := double_model)
                (PyInt 16777217) 1 __init__ _ eq_refl)
      as [_ [Hrun [Hfloat _]]].
    split; [exact Hrun|].
    exact (Hfloat _ _ eq_refl eq_refl eq_refl eq_refl).
  - destruct (broadcast_number_float32 (self := double_model)
                (PyInt 5) 0 __init__ _ eq_refl)
      as [_ [Hrun _]].
    rewrite Hrun. reflexivity.
Defined.

(** ** The UTF-8 codec *)

Ltac settle_tests :=
  repeat (match goal with
          | H : context [Z.ltb ?a ?b] |- _ => destruct (Z.ltb_spec a b)
          | H : context [Z.leb ?a ?b] |- _ => destruct (Z.leb_spec a b)
          | |- context [Z.ltb ?a ?b] => destruct (Z.ltb_spec a b)
          | |- context [Z.leb ?a ?b] => destruct (Z.leb_spec a b)
          end;
          cbn [andb orb negb] in *;
          try discriminate;
          try (exfalso; lia)).

Lemma Ok_inj {A} (a b : A) : Ok a = Ok b -> a = b.
Proof. congruence. Qed.

(** The four forms of an encoded code point, with quotients and remainders
    by 64 named. *)
Lemma encode_char_cases (c : Z) (bs : list Z) :
  utf8.encode_char c = Ok bs ->
  (0 <= c < 128 /\ bs = [c])
  \/ (exists q r, c = 64 * q + r /\ 0 <= r < 64 /\ 2 <= q < 32
                  /\ bs = [192 + q; 128 + r])
  \/ (exists q r1 r0,
        c = 4096 * q + 64 * r1 + r0 /\ 0 <= r0 < 64 /\ 0 <= r1 < 64
        /\ 0 <= q < 16 /\ 2048 <= c /\ (c < 55296 \/ 57343 < c)
        /\ bs = [224 + q; 128 + r1; 128 + r0])
  \/ (exists q r2 r1 r0,
        c = 262144 * q + 4096 * r2 + 64 * r1 + r0 /\ 0 <= r0 < 64
        /\ 0 <= r1 < 64 /\ 0 <= r2 < 64 /\ 0 <= q < 8
        /\ 65536 <= c <= 1114111
        /\ bs = [240 + q; 128 + r2; 128 + r1; 128 + r0]).
Proof.
  unfold utf8.encode_char, utf8.is_surrogate. intros H.
  settle_tests; apply Ok_inj in H; subst bs.
  - left. split; [lia|reflexivity].
  - right; left. exists (c / 64), (c mod 64).
    repeat split; try reflexivity; Z.div_mod_to_equations; lia.
  - right; right; left.
    exists (c / 4096), ((c / 64) mod 64), (c mod 64).
    repeat split; try reflexivity; Z.div_mod_to_equations; lia.
  - right; right; left.
    exists (c / 4096), ((c / 64) mod 64), (c mod 64).
    repeat split; try reflexivity; Z.div_mod_to_equations; lia.
  - right; right; right.
    exists (c / 262144), ((c / 4096) mod 64), ((c / 64) mod 64), (c mod 64).
    repeat split; try reflexivity; Z.div_mod_to_equations; lia.
Qed.

Lemma encode_char_bytes (c : Z) (bs : list Z) :
  utf8.encode_char c = Ok bs ->
  forallb (fun b => (0 <=? b) && (b <? 256)) bs = true.
Proof.
  intros H. apply encode_char_cases in H.
  destruct H as [[Hc ->]|[(q & r & Hc & Hr & Hq & ->)
                 |[(q & r1 & r0 & Hc & H0 & H1 & Hq & Hlo & Hs & ->)
                  |(q & r2 & r1 & r0 & Hc & H0 & H1 & H2 & Hq & Hlo & ->)]]];
    cbn [forallb]; settle_tests; reflexivity.
Qed.

Lemma decode_encode_char (c : Z) (bs rest : list Z) :
  utf8.encode_char c = Ok bs ->
  utf8.decode (bs ++ rest)
  = res_bind (utf8.decode rest) (fun s => Ok (c :: s)).
Proof.
  intros H. apply encode_char_cases in H.
  destruct H as [[Hc ->]|[(q & r & Hc & Hr & Hq & ->)
                 |[(q & r1 & r0 & Hc & H0 & H1 & Hq & Hlo & Hs & ->)
                  |(q & r2 & r1 & r0 & Hc & H0 & H1 & H2 & Hq & Hlo & ->)]]];
    cbn [app utf8.decode]; unfold utf8.continuation, utf8.is_surrogate;
    settle_tests;
    destruct (utf8.decode rest); cbn [res_bind]; try reflexivity;
    do 2 f_equal; lia.
Qed.

Lemma decode_encode_chars (x : str) (bss : list (list Z)) :
  res_map utf8.encode_char x = Ok bss ->
  utf8.decode (List.concat bss) = Ok x
  /\ forallb (fun b => (0 <=? b) && (b <? 256)) (List.concat bss) = true.
Proof.
  revert bss. induction x as [|c x IH]; intros bss H; cbn in H.
  - apply Ok_inj in H. subst bss. now split.
  - destruct (utf8.encode_char c) as [b|] eqn:Ec; [|discriminate].
    cbn in H. destruct (res_map utf8.encode_char x) as [bs|]; [|discriminate].
    cbn in H. apply Ok_inj in H. subst bss. cbn [List.concat].
    destruct (IH bs eq_refl) as [Hd Hr]. split.
    + rewrite (decode_encode_char c b _ Ec), Hd. reflexivity.
    + rewrite forallb_app, Hr, (encode_char_bytes c b Ec). reflexivity.
Qed.

(** Decoding inverts encoding, and encoded bytes are bytes. *)
Lemma decode_encode (x : str) (bs : list Z) :
  utf8.encode x = Ok bs ->
  utf8.decode bs = Ok x /\ bytearray bs = Ok bs.
Proof.
  unfold utf8.encode, bytearray. intros H.
  destruct (res_map utf8.encode_char x) as [bss|] eqn:E; [|discriminate].
  cbn in H. apply Ok_inj in H. subst bs.
  destruct (decode_encode_chars x bss E) as [Hd Hr]. now rewrite Hr.
Qed.

Lemma encode_ascii (x : str) : is_ascii x = true -> utf8.encode x = Ok x.
Proof.
  unfold utf8.encode. intros H.
  assert (E : res_map utf8.encode_char x = Ok (map (fun c => [c]) x)).
  { induction x as [|c x IH]; [reflexivity|].
    cbn in H. apply andb_prop in H as [Hc Hx]. cbn [res_map map].
    rewrite (IH Hx). unfold utf8.encode_char.
    settle_tests. reflexivity. }
  assert (C : forall l : list Z, List.concat (map (fun c => [c]) l) = l).
  { induction l as [|c l IH]; [reflexivity|].
    cbn [map List.concat app]. now rewrite IH. }
  rewrite E. cbn [res_bind]. now rewrite C.
Qed.

(** ** The encoded text buffer *)

Lemma cast_long_small (z : Z) :
  0 <= z < 2 ^ 63 -> torch.cast torch.long (PyInt z) = PyInt z.
Proof.
  intros Hz. unfold torch.cast, torch.long.
  cbn [torch.float_format torch.int_format torch.as_Z]. unfold torch.wrap.
  change (2 ^ 63) with 9223372036854775808 in Hz.
  change (2 ^ (64 - 1)) with 9223372036854775808.
  change (2 ^ 64) with 18446744073709551616.
  rewrite Z.mod_small by lia. cbn [andb].
  destruct (Z.leb_spec 9223372036854775808 z); [lia|reflexivity].
Qed.

Lemma cast_long_bytes (bs : list Z) :
  forallb (fun b => (0 <=? b) && (b <? 256)) bs = true ->
  map (torch.cast torch.long) (map PyInt bs) = map PyInt bs.
Proof.
  induction bs as [|b bs IH]; [reflexivity|]. cbn [forallb map]. intros H.
  apply andb_prop in H as [Hb Hbs]. apply andb_prop in Hb as [H0 H1].
  apply Z.leb_le in H0. apply Z.ltb_lt in H1.
  rewrite IH by assumption. rewrite cast_long_small; [reflexivity|].
  change (2 ^ 63) with 9223372036854775808. lia.
Qed.

Lemma skipn_repeat {A} (a : A) (n m : nat) :
  skipn n (repeat a m) = repeat a (m - n).
Proof.
  revert m. induction n as [|n IH]; intros [|m]; cbn; auto.
Qed.

Lemma removelast_repeat {A} (a : A) (n : nat) :
  removelast (repeat a (S n)) = repeat a n.
Proof.
  change (repeat a (S n)) with (a :: repeat a n).
  rewrite repeat_cons. apply removelast_last.
Qed.

Lemma len_nonneg {A} (l : list A) : 0 <= len l.
Proof. unfold len. lia. Qed.

Lemma slice_to_len {A} (l rest : list A) :
  slice_to (l ++ rest) (len l) = l.
Proof.
  unfold slice_to. pose proof (len_nonneg l) as Hl.
  destruct (Z.ltb_spec (len l) 0); [lia|].
  unfold len. rewrite Nat2Z.id, firstn_app, firstn_all, Nat.sub_diag.
  cbn. apply app_nil_r.
Qed.

(** Building the buffer from the bytes of the (cut) string. *)
Lemma pad_bytes (bs : list Z) (dev : torch.device) :
  len bs <= 1024 ->
  forallb (fun b => (0 <=? b) && (b <? 256)) bs = true ->
  exists p1 p2,
    torch.setitem_slice_to (torch.zeros 1025 dev torch.long) (len bs)
      (torch.to_ None (Some dev) (torch.tensor_bytearray bs)) = Ok p1
    /\ torch.setitem_last p1 (PyInt (len bs)) = Ok p2
    /\ torch.unsqueeze0 p2 = encoded bs dev.
Proof.
  intros Hlen Hbytes.
  assert (Hn : (List.length bs <= 1024)%nat) by (unfold len in Hlen; lia).
  assert (Hz : torch.cast torch.long (PyInt 0) = PyInt 0) by reflexivity.
  exists {| torch.tdtype := torch.long; torch.tdevice := dev;
            torch.tshape := [1025%nat];
            torch.tdata := map PyInt bs
                           ++ repeat (PyInt 0) (1025 - List.length bs) |}.
  exists {| torch.tdtype := torch.long; torch.tdevice := dev;
            torch.tshape := [1025%nat];
            torch.tdata := map PyInt bs
                           ++ repeat (PyInt 0) (1024 - List.length bs)
                           ++ [PyInt (len bs)] |}.
  split; [|split].
  - unfold torch.setitem_slice_to, torch.zeros, torch.to_,
      torch.tensor_bytearray.
    cbn [torch.tdata torch.tdtype torch.tdevice torch.tshape].
    rewrite Hz, cast_long_bytes by assumption.
    assert (Hm : List.length (slice_to (repeat (PyInt 0) 1025) (len bs))
                 = List.length bs).
    { unfold slice_to. pose proof (len_nonneg bs).
      destruct (Z.ltb_spec (len bs) 0); [lia|].
      unfold len. rewrite Nat2Z.id, length_firstn, repeat_length. lia. }
    rewrite Hm, length_map, Nat.eqb_refl, skipn_repeat. reflexivity.
  - unfold torch.setitem_last.
    cbn [torch.tdata torch.tdtype torch.tdevice torch.tshape].
    replace (1025 - List.length bs)%nat with (S (1024 - List.length bs))
      by lia.
    rewrite removelast_app by discriminate.
    rewrite removelast_repeat, cast_long_small, <- app_assoc
      by (change (2 ^ 63) with 9223372036854775808;
          pose proof (len_nonneg bs); lia).
    destruct (map PyInt bs ++ repeat (PyInt 0) (S (1024 - List.length bs)))
      eqn:E; [|reflexivity].
    apply app_eq_nil in E as [_ E]. discriminate.
  - reflexivity.
Qed.

Lemma _encode_str_run (x : str) (dev : torch.device) (w : world)
    (bs : list Z) :
  utf8.encode (if len x >? 1024 then slice_to x 1024 else x) = Ok bs ->
  len bs <= 1024 ->
  _encode_str x dev w
  = (Ok (encoded bs dev),
     after w ((if len x >? 1024 then [truncation_warning (len x)] else [])
              ++ [To None (Some dev)])).
Proof.
  intros Henc Hlen.
  destruct (decode_encode _ _ Henc) as [_ Hbytes].
  unfold bytearray in Hbytes.
  destruct (forallb _ bs) eqn:Hrange; [|discriminate].
  destruct (pad_bytes bs dev Hlen Hrange) as (p1 & p2 & H1 & H2 & H3).
  unfold _encode_str. cbv zeta.
  change (Z.to_nat (1024 + 1)) with 1025%nat.
  unfold bind at 1.
  destruct (len x >? 1024).
  - unfold bind at 1. unfold warn. rewrite log_run. unfold ret.
    unfold bind, lift, ret. rewrite Henc, to_run.
    cbn [torch.len torch.to_ torch.tensor_bytearray torch.tshape].
    fold (len bs).
    rewrite H1, H2, H3, after_after. reflexivity.
  - unfold ret. unfold bind, lift, ret. rewrite Henc, to_run.
    cbn [torch.len torch.to_ torch.tensor_bytearray torch.tshape].
    fold (len bs).
    rewrite H1, H2, H3. reflexivity.
Qed.

Lemma _decode_str_encoded (x : str) (bs : list Z) (dev : torch.device) :
  utf8.encode x = Ok bs ->
  len bs <= 1024 ->
  _decode_str (encoded bs dev) = Ok [x].
Proof.
  intros Henc Hlen. destruct (decode_encode _ _ Henc) as [Hdec Hbytes].
  assert (Hn : (List.length bs <= 1024)%nat) by (unfold len in Hlen; lia).
  unfold _decode_str, torch.rows, encoded.
  cbn [torch.tshape torch.tdata torch.tdtype torch.tdevice res_bind].
  set (data := map PyInt bs ++ repeat (PyInt 0) (1024 - List.length bs)
               ++ [PyInt (len bs)]).
  assert (Hdata : List.length data = 1025%nat).
  { unfold data. rewrite !length_app, length_map, repeat_length.
    cbn [List.length]. lia. }
  change (fold_right Nat.mul 1%nat [1025%nat]) with 1025%nat.
  cbn [torch.chunks map].
  rewrite firstn_all2 by lia.
  cbn [res_map]. unfold torch.last_index.
  cbn [torch.tshape torch.tdata torch.tdtype].
  assert (Hrev : rev data
                 = PyInt (len bs)
                   :: rev (map PyInt bs
                           ++ repeat (PyInt 0) (1024 - List.length bs))).
  { unfold data. now rewrite app_assoc, rev_app_distr. }
  rewrite Hrev. cbn [torch.is_floating_point torch.long torch.as_Z res_bind].
  unfold torch.slice_tolist. cbn [torch.tdata]. unfold data.
  assert (Hl : len bs = len (map PyInt bs))
    by (unfold len; now rewrite length_map).
  replace (slice_to (map PyInt bs
                     ++ repeat (PyInt 0) (1024 - List.length bs)
                     ++ [PyInt (len bs)]) (len bs))
    with (map PyInt bs) by (rewrite Hl at 2; now rewrite slice_to_len).
  rewrite map_map. cbn [torch.as_Z]. rewrite map_id.
  rewrite Hbytes. cbn [res_bind]. rewrite Hdec. reflexivity.
Qed.

(** X1.  A string of at most 1024 code points whose UTF-8 form has at most
    1024 bytes is encoded without a warning and decoded to itself. *)
Theorem encode_decode_roundtrip (x : str) (dev : torch.device) (w : world)
    (bs : list Z) :
  len x <= 1024 ->
  utf8.encode x = Ok bs ->
  len bs <= 1024 ->
  _encode_str x dev w = (Ok (encoded bs dev), after w [To None (Some dev)])
  /\ _decode_str (encoded bs dev) = Ok [x].
Proof.
  intros Hx Henc Hbs. split.
  - assert (E : (len x >? 1024) = false)
      by (rewrite Z.gtb_ltb; apply Z.ltb_ge; lia).
    pose proof (_encode_str_run x dev w bs) as Hrun.
    rewrite E in Hrun. now apply Hrun.
  - now apply _decode_str_encoded.
Qed.

Lemma encode_decode_roundtrip_witness :
  _encode_str [104; 233; 8364; 128512] torch.cpu __init__
  = (Ok (encoded [104; 195; 169; 226; 130; 172; 240; 159; 152; 128] torch.cpu),
     after __init__ [To None (Some torch.cpu)])
  /\ _decode_str
       (encoded [104; 195; 169; 226; 130; 172; 240; 159; 152; 128] torch.cpu)
     = Ok [[104; 233; 8364; 128512]].
Proof.
  apply (encode_decode_roundtrip [104; 233; 8364; 128512] torch.cpu __init__
           [104; 195; 169; 226; 130; 172; 240; 159; 152; 128]).
  - vm_compute. discriminate.
  - reflexivity.
  - vm_compute. discriminate.
Defined.

Lemma is_ascii_firstn (n : nat) (x : str) :
  is_ascii x = true -> is_ascii (firstn n x) = true.
Proof.
  unfold is_ascii. revert x. induction n as [|n IH]; intros [|c x] H;
    try reflexivity.
  cbn [firstn forallb] in *. apply andb_prop in H as [Hc Hx].
  now rewrite Hc, IH.
Qed.

(** X2.  A longer string of ASCII characters is cut to its first 1024
    characters, with a warning; the length field is 1024 and decoding gives
    the prefix. *)
Theorem encode_truncates_ascii (x : str) (dev : torch.device) (w : world) :
  is_ascii x = true ->
  1024 < len x ->
  _encode_str x dev w
  = (Ok (encoded (firstn 1024 x) dev),
     after w [truncation_warning (len x); To None (Some dev)])
  /\ nth 1024 (torch.tdata (encoded (firstn 1024 x) dev)) (PyInt 0)
     = PyInt 1024
  /\ _decode_str (encoded (firstn 1024 x) dev) = Ok [firstn 1024 x].
Proof.
  intros Hascii Hlen.
  assert (Hcut : len (firstn 1024 x) = 1024).
  { unfold len in *. rewrite length_firstn. lia. }
  assert (Henc : utf8.encode (firstn 1024 x) = Ok (firstn 1024 x))
    by now apply encode_ascii, is_ascii_firstn.
  split; [|split].
  - assert (E : (len x >? 1024) = true)
      by (rewrite Z.gtb_ltb; apply Z.ltb_lt; lia).
    pose proof (_encode_str_run x dev w (firstn 1024 x)) as Hrun.
    rewrite E in Hrun. apply Hrun; [exact Henc | lia].
  - unfold encoded. cbn [torch.tdata].
    assert (Hl : List.length (firstn 1024 x) = 1024%nat)
      by (unfold len in Hcut; lia).
    rewrite app_assoc, app_nth2; rewrite length_app, length_map,
      repeat_length, Hl; [|lia].
    rewrite Hcut. reflexivity.
  - apply _decode_str_encoded; [exact Henc | lia].
Qed.

Lemma encode_truncates_ascii_witness :
  _encode_str (repeat 97 2000) torch.cpu __init__
  = (Ok (encoded (firstn 1024 (repeat 97 2000)) torch.cpu),
     after __init__ [truncation_warning 2000; To None (Some torch.cpu)])
  /\ nth 1024 (torch.tdata (encoded (firstn 1024 (repeat 97 2000)) torch.cpu))
       (PyInt 0)
     = PyInt 1024
  /\ _decode_str (encoded (firstn 1024 (repeat 97 2000)) torch.cpu)
     = Ok [firstn 1024 (repeat 97 2000)].
Proof.
  apply (encode_truncates_ascii (repeat 97 2000) torch.cpu __init__).
  - vm_compute. reflexivity.
  - vm_compute. reflexivity.
Defined.

(** C1 fails on the code.  A string of 513 two-byte characters has 513
    code points and 1026 bytes: [_encode_str] raises when it copies the
    bytes into the 1025 places of the buffer.  A string of 1024 code points
    and 1025 bytes is encoded, its last byte overwritten by the length
    1025, and [_decode_str] raises on the buffer. *)
Theorem encode_str_multibyte_raises :
  len (repeat 233 513) <= 1024
  /\ _encode_str (repeat 233 513) torch.cpu __init__
     = (Raise RuntimeError, after __init__ [To None (Some torch.cpu)])
  /\ len (233 :: repeat 97 1023) <= 1024
  /\ res_bind (fst (_encode_str (233 :: repeat 97 1023) torch.cpu __init__))
       _decode_str
     = Raise ValueError.
Proof.
  split; [vm_compute; discriminate|].
  split; [vm_compute; reflexivity|].
  split; [vm_compute; discriminate|].
  vm_compute; reflexivity.
Qed.

(** C5 fails on the code.  A string of 1025 two-byte characters is cut to
    1024 characters, which are 2048 bytes: after the warning,
    [_encode_str] raises. *)
Theorem encode_str_truncated_multibyte_raises :
  1024 < len (repeat 233 1025)
  /\ _encode_str (repeat 233 1025) torch.cpu __init__
     = (Raise RuntimeError,
        after __init__ [truncation_warning 1025; To None (Some torch.cpu)]).
Proof.
  split; vm_compute; reflexivity.
Qed.

(** * Further properties *)

(** ** What [_encode_str] does with any string *)

Lemma after_nil (w : world) : after w [] = w.
Proof. destruct w; unfold after; cbn. now rewrite app_nil_r. Qed.

(** [_encode_str] warns if it cuts, encodes the cut string, and copies the
    bytes and their number into a zeroed buffer of 1025 places. *)
Lemma _encode_str_unfold (x : str) (dev : torch.device) (w : world) :
  _encode_str x dev w
  = match utf8.encode (cut x) with
    | Raise e => (Raise e, after w (cut_events x))
    | Ok bs =>
        (res_bind
           (torch.setitem_slice_to (torch.zeros 1025 dev torch.long) (len bs)
              (torch.to_ None (Some dev) (torch.tensor_bytearray bs)))
           (fun p =>
              res_bind (torch.setitem_last p (PyInt (len bs)))
                (fun q => Ok (torch.unsqueeze0 q))),
         after w (cut_events x ++ [To None (Some dev)]))
    end.
Proof.
  unfold _encode_str, cut, cut_events. cbv zeta.
  change (Z.to_nat (1024 + 1)) with 1025%nat.
  unfold bind at 1.
  destruct (len x >? 1024).
  - unfold bind at 1. unfold warn. rewrite log_run. unfold ret.
    unfold bind, lift, ret.
    destruct (utf8.encode (slice_to x 1024)) as [bs|e]; [|reflexivity].
    rewrite to_run.
    cbn [torch.len torch.to_ torch.tensor_bytearray torch.tshape].
    fold (len bs). rewrite after_after.
    destruct (torch.setitem_slice_to _ _ _) as [p|e]; [|reflexivity].
    cbn [res_bind]. now destruct (torch.setitem_last p _).
  - unfold ret. unfold bind, lift, ret.
    destruct (utf8.encode x) as [bs|e]; [|now rewrite after_nil].
    rewrite to_run.
    cbn [torch.len torch.to_ torch.tensor_bytearray torch.tshape].
    fold (len bs). cbn [app].
    destruct (torch.setitem_slice_to _ _ _) as [p|e]; [|reflexivity].
    cbn [res_bind]. now destruct (torch.setitem_last p _).
Qed.

Lemma length_slice_zeros (n : nat) (k : Z) (a : number) :
  0 <= k ->
  List.length (slice_to (repeat a n) k) = Nat.min (Z.to_nat k) n.
Proof.
  intros Hk. unfold slice_to.
  destruct (Z.ltb_spec k 0); [lia|].
  now rewrite length_firstn, repeat_length.
Qed.

(** More bytes than the buffer has places cannot be copied into it. *)
Lemma setitem_overflow (bs : list Z) (dev : torch.device) :
  1025 < len bs ->
  torch.setitem_slice_to (torch.zeros 1025 dev torch.long) (len bs)
    (torch.to_ None (Some dev) (torch.tensor_bytearray bs))
  = Raise RuntimeError.
Proof.
  intros Hlen. unfold torch.setitem_slice_to, torch.zeros, torch.to_,
    torch.tensor_bytearray.
  cbn [torch.tdata torch.tdtype torch.tdevice torch.tshape].
  rewrite length_slice_zeros by (unfold len; lia).
  rewrite !length_map. unfold len in *. rewrite Nat2Z.id.
  replace (Nat.min (List.length bs) 1025) with 1025%nat by lia.
  destruct (Nat.eqb_spec (List.length bs) 1025); [lia|].
  destruct bs as [|a [|b l]]; cbn [List.length] in Hlen; try lia.
  reflexivity.
Qed.

(** Exactly 1025 bytes fill the buffer, and the length then replaces the
    last of them. *)
Lemma setitem_full (bs : list Z) (dev : torch.device) :
  len bs = 1025 ->
  forallb (fun b => (0 <=? b) && (b <? 256)) bs = true ->
  res_bind
    (torch.setitem_slice_to (torch.zeros 1025 dev torch.long) (len bs)
       (torch.to_ None (Some dev) (torch.tensor_bytearray bs)))
    (fun p =>
       res_bind (torch.setitem_last p (PyInt (len bs)))
         (fun q => Ok (torch.unsqueeze0 q)))
  = Ok {| torch.tdtype := torch.long; torch.tdevice := dev;
          torch.tshape := [1%nat; 1025%nat];
          torch.tdata := map PyInt (removelast bs) ++ [PyInt 1025] |}.
Proof.
  intros Hlen Hbytes.
  assert (Hn : List.length bs = 1025%nat) by (unfold len in Hlen; lia).
  unfold torch.setitem_slice_to, torch.zeros, torch.to_,
    torch.tensor_bytearray.
  cbn [torch.tdata torch.tdtype torch.tdevice torch.tshape].
  rewrite length_slice_zeros by lia.
  rewrite cast_long_bytes by assumption.
  rewrite length_map, Hlen, Hn.
  change (Nat.min (Z.to_nat 1025) 1025) with 1025%nat.
  rewrite Nat.eqb_refl, skipn_repeat. cbn [res_bind].
  change (1025 - 1025)%nat with 0%nat. cbn [repeat]. rewrite app_nil_r.
  unfold torch.setitem_last.
  cbn [torch.tdata torch.tdtype torch.tdevice torch.tshape].
  destruct (map PyInt bs) eqn:E.
  - destruct bs; [discriminate Hn|discriminate E].
  - rewrite <- E. cbn [res_bind]. unfold torch.unsqueeze0.
    cbn [torch.tdata torch.tdtype torch.tdevice torch.tshape].
    rewrite cast_long_small
      by (change (2 ^ 63) with 9223372036854775808; lia).
    do 2 f_equal. f_equal.
    clear. induction bs as [|a [|b l] IH]; try reflexivity.
    change (removelast (a :: b :: l)) with (a :: removelast (b :: l)).
    cbn [map]. cbn [map] in IH. now rewrite <- IH.
Qed.

Lemma removelast_length {A} (l : list A) (n : nat) :
  List.length l = S n -> List.length (removelast l) = n.
Proof.
  revert n. induction l as [|a [|b l] IH]; intros n H; try discriminate.
  - now inversion H.
  - change (removelast (a :: b :: l)) with (a :: removelast (b :: l)).
    destruct n as [|n]; [discriminate|].
    cbn [List.length]. f_equal. apply IH. now inversion H.
Qed.

(** A buffer whose length field is 1025 cannot be decoded: the field itself
    is taken for a byte. *)
Lemma _decode_str_full (bs : list Z) (dev : torch.device) :
  List.length bs = 1025%nat ->
  _decode_str {| torch.tdtype := torch.long; torch.tdevice := dev;
                 torch.tshape := [1%nat; 1025%nat];
                 torch.tdata := map PyInt (removelast bs) ++ [PyInt 1025] |}
  = Raise ValueError.
Proof.
  intros Hn. unfold _decode_str, torch.rows.
  cbn [torch.tshape torch.tdata torch.tdtype torch.tdevice res_bind].
  set (data := map PyInt (removelast bs) ++ [PyInt 1025]).
  assert (Hdata : List.length data = 1025%nat).
  { unfold data. rewrite length_app, length_map.
    rewrite (removelast_length bs 1024 Hn). reflexivity. }
  change (fold_right Nat.mul 1%nat [1025%nat]) with 1025%nat.
  cbn [torch.chunks map]. rewrite firstn_all2 by lia.
  cbn [res_map]. unfold torch.last_index.
  cbn [torch.tshape torch.tdata torch.tdtype].
  assert (Hrev : rev data = PyInt 1025 :: rev (map PyInt (removelast bs)))
    by (unfold data; now rewrite rev_app_distr).
  rewrite Hrev.
  cbn [torch.is_floating_point torch.long torch.as_Z res_bind].
  unfold torch.slice_tolist. cbn [torch.tdata].
  assert (Hslice : slice_to data 1025 = data).
  { unfold slice_to. cbn [Z.ltb Z.compare]. apply firstn_all2. lia. }
  rewrite Hslice. unfold data. rewrite map_app, map_map. cbn [torch.as_Z map].
  unfold bytearray. rewrite forallb_app. cbn [forallb].
  change ((0 <=? 1025) && (1025 <? 256)) with false.
  rewrite andb_false_r. reflexivity.
Qed.

Lemma encode_char_surrogate (c : Z) :
  utf8.is_surrogate c = true -> utf8.encode_char c = Raise UnicodeEncodeError.
Proof.
  unfold utf8.encode_char, utf8.is_surrogate. intros H.
  settle_tests; reflexivity.
Qed.

Lemma encode_char_raise (c : Z) (e : exn) :
  utf8.encode_char c = Raise e -> e = UnicodeEncodeError.
Proof.
  unfold utf8.encode_char. intros H.
  repeat match type of H with
         | (if ?b then _ else _) = _ => destruct b
         end; congruence.
Qed.

Lemma encode_chars_surrogate (x : str) :
  existsb utf8.is_surrogate x = true ->
  res_map utf8.encode_char x = Raise UnicodeEncodeError.
Proof.
  induction x as [|c x IH]; [discriminate|].
  cbn [existsb res_map]. intros H.
  destruct (utf8.encode_char c) as [b|e] eqn:Ec.
  - destruct (utf8.is_surrogate c) eqn:Hs.
    + rewrite (encode_char_surrogate c Hs) in Ec. discriminate.
    + cbn [orb] in H. cbn [res_bind]. now rewrite (IH H).
  - apply encode_char_raise in Ec. now subst e.
Qed.

(** X3.  If the UTF-8 form of the (cut) string has more than 1025 bytes,
    [_encode_str] raises [RuntimeError] when it copies them into the
    buffer; the warning, if any, and the move to the device have happened. *)
Theorem encode_str_overflow_raises (x : str) (dev : torch.device) (w : world)
    (bs : list Z) :
  utf8.encode (cut x) = Ok bs ->
  1025 < len bs ->
  _encode_str x dev w
  = (Raise RuntimeError, after w (cut_events x ++ [To None (Some dev)])).
Proof.
  intros Henc Hlen. rewrite _encode_str_unfold, Henc.
  now rewrite setitem_overflow.
Qed.

Lemma encode_str_overflow_raises_witness :
  _encode_str (repeat 8364 400) (torch.cuda None) __init__
  = (Raise RuntimeError, after __init__ [To None (Some (torch.cuda None))]).
Proof.
  apply (encode_str_overflow_raises (repeat 8364 400) (torch.cuda None)
           __init__ (List.concat (repeat [226; 130; 172] 400))).
  - vm_compute. reflexivity.
  - vm_compute. reflexivity.
Defined.

(** X4.  If the UTF-8 form of the (cut) string has exactly 1025 bytes,
    [_encode_str] returns a buffer whose length field, 1025, has replaced
    the last byte, and [_decode_str] raises [ValueError] on that buffer. *)
Theorem encode_str_full_buffer_undecodable (x : str) (dev : torch.device)
    (w : world) (bs : list Z) :
  utf8.encode (cut x) = Ok bs ->
  len bs = 1025 ->
  exists t,
    _encode_str x dev w
    = (Ok t, after w (cut_events x ++ [To None (Some dev)]))
    /\ torch.tdata t = map PyInt (removelast bs) ++ [PyInt 1025]
    /\ _decode_str t = Raise ValueError.
Proof.
  intros Henc Hlen.
  destruct (decode_encode _ _ Henc) as [_ Hbytes].
  unfold bytearray in Hbytes.
  destruct (forallb _ bs) eqn:Hrange; [|discriminate].
  eexists. rewrite _encode_str_unfold, Henc.
  rewrite (setitem_full bs dev Hlen Hrange).
  split; [reflexivity|]. split; [reflexivity|].
  apply _decode_str_full. unfold len in Hlen. lia.
Qed.

Lemma encode_str_full_buffer_undecodable_witness :
  exists t,
    _encode_str (repeat 97 1023 ++ [233]) torch.cpu __init__
    = (Ok t, after __init__ [To None (Some torch.cpu)])
    /\ torch.tdata t
       = map PyInt (removelast (repeat 97 1023 ++ [195; 169])) ++ [PyInt 1025]
    /\ _decode_str t = Raise ValueError.
Proof.
  apply (encode_str_full_buffer_undecodable (repeat 97 1023 ++ [233])
           torch.cpu __init__ (repeat 97 1023 ++ [195; 169])).
  - vm_compute. reflexivity.
  - vm_compute. reflexivity.
Defined.

(** X5.  A string with a lone surrogate among the code points that are
    kept cannot be encoded: [_encode_str] raises [UnicodeEncodeError]
    before it builds any tensor. *)
Theorem encode_str_surrogate_raises (x : str) (dev : torch.device)
    (w : world) :
  existsb utf8.is_surrogate (cut x) = true ->
  _encode_str x dev w = (Raise UnicodeEncodeError, after w (cut_events x)).
Proof.
  intros H. rewrite _encode_str_unfold. unfold utf8.encode.
  now rewrite (encode_chars_surrogate _ H).
Qed.

Lemma encode_str_surrogate_raises_witness :
  _encode_str [97; 55357; 98] torch.cpu __init__
  = (Raise UnicodeEncodeError, after __init__ []).
Proof.
  apply (encode_str_surrogate_raises [97; 55357; 98] torch.cpu __init__).
  vm_compute. reflexivity.
Defined.

(** ** Batches of encoded text *)

Lemma encoded_row_length (bs : list Z) :
  (List.length bs <= 1024)%nat -> List.length (encoded_row bs) = 1025%nat.
Proof.
  intros H. unfold encoded_row.
  rewrite !length_app, length_map, repeat_length. cbn [List.length]. lia.
Qed.

(** One row of a batch decodes to the string whose bytes it holds. *)
Lemma decode_row (x : str) (bs : list Z) (dev : torch.device) :
  utf8.encode x = Ok bs ->
  len bs <= 1024 ->
  res_bind
    (torch.last_index
       {| torch.tdtype := torch.long; torch.tdevice := dev;
          torch.tshape := [1025%nat]; torch.tdata := encoded_row bs |})
    (fun k =>
       res_bind
         (bytearray
            (map torch.as_Z
               (torch.slice_tolist
                  {| torch.tdtype := torch.long; torch.tdevice := dev;
                     torch.tshape := [1025%nat];
                     torch.tdata := encoded_row bs |} k)))
         (fun b => utf8.decode b))
  = Ok x.
Proof.
  intros Henc Hlen. destruct (decode_encode _ _ Henc) as [Hdec Hbytes].
  unfold torch.last_index.
  cbn [torch.tshape torch.tdata torch.tdtype].
  assert (Hrev : rev (encoded_row bs)
                 = PyInt (len bs)
                   :: rev (map PyInt bs
                           ++ repeat (PyInt 0) (1024 - List.length bs))).
  { unfold encoded_row. now rewrite app_assoc, rev_app_distr. }
  rewrite Hrev.
  cbn [torch.is_floating_point torch.long torch.as_Z res_bind].
  unfold torch.slice_tolist. cbn [torch.tdata].
  assert (Hl : len bs = len (map PyInt bs))
    by (unfold len; now rewrite length_map).
  replace (slice_to (encoded_row bs) (len bs)) with (map PyInt bs)
    by (unfold encoded_row; rewrite Hl at 2; now rewrite slice_to_len).
  rewrite map_map. cbn [torch.as_Z]. rewrite map_id.
  rewrite Hbytes. cbn [res_bind]. exact Hdec.
Qed.

Lemma chunks_concat (rows : list (list number)) (k : nat) :
  Forall (fun r => List.length r = k) rows ->
  torch.chunks (List.length rows) k (List.concat rows) = rows.
Proof.
  induction 1 as [|r rows Hr _ IH]; [reflexivity|].
  cbn [List.length List.concat torch.chunks].
  rewrite firstn_app, firstn_all2, Hr, Nat.sub_diag by lia.
  cbn [firstn]. rewrite app_nil_r.
  rewrite skipn_app, skipn_all2, Hr, Nat.sub_diag by lia.
  cbn [skipn app]. now rewrite IH.
Qed.

(** X6.  [_decode_str] gives one string for each row of a batch of encoded
    buffers, in the order of the rows; an empty batch gives the empty
    list. *)
Theorem decode_str_batch (xs : list str) (bss : list (list Z))
    (dev : torch.device) :
  Forall2 (fun x bs => utf8.encode x = Ok bs /\ len bs <= 1024) xs bss ->
  _decode_str (stack bss dev) = Ok xs.
Proof.
  intros H. unfold _decode_str, torch.rows, stack.
  cbn [torch.tshape torch.tdata torch.tdtype torch.tdevice].
  change (fold_right Nat.mul 1%nat [1025%nat]) with 1025%nat.
  rewrite <- (length_map encoded_row bss).
  rewrite chunks_concat.
  - cbn [res_bind]. induction H as [|x bs xs bss [Henc Hlen] _ IH].
    + reflexivity.
    + cbn [map res_map]. rewrite (decode_row x bs dev Henc Hlen).
      cbn [res_bind]. rewrite IH. reflexivity.
  - apply Forall_map. induction H as [|x bs xs bss [_ Hlen] _ IH];
      constructor; [|exact IH].
    apply encoded_row_length. unfold len in Hlen. lia.
Qed.

Lemma decode_str_batch_witness :
  _decode_str (stack [[104; 105]; []; [195; 169]] torch.cpu)
  = Ok [[104; 105]; []; [233]].
Proof.
  apply (decode_str_batch [[104; 105]; []; [233]]
           [[104; 105]; []; [195; 169]] torch.cpu).
  repeat constructor; vm_compute; discriminate.
Defined.

(** ** Strings through the collectives *)

Section Strings.

Context `{self : ComputationModel}.

(** [_collective_op] on a string whose bytes fit: encode, apply, decode. *)
Lemma _collective_op_str_run (x : str) (bs : list Z) (name : string)
    (f : torch.Tensor -> res torch.Tensor) (w : world) :
  utf8.encode (cut x) = Ok bs ->
  len bs <= 1024 ->
  _collective_op (Str x) (call name f) w
  = match f (operand (encoded bs device) device) with
    | Ok r =>
        (res_bind (_decode_str (restored (encoded bs device) device r))
           (fun l => Ok (PyList (map Str l))),
         after w (cut_events x ++ [To None (Some device)]
                  ++ forward_events (encoded bs device) device
                  ++ [Call name (operand (encoded bs device) device)]
                  ++ backward_events (encoded bs device) device))
    | Raise e =>
        (Raise e,
         after w (cut_events x ++ [To None (Some device)]
                  ++ forward_events (encoded bs device) device
                  ++ [Call name (operand (encoded bs device) device)]))
    end.
Proof.
  intros Henc Hlen. unfold _collective_op. unfold bind at 1.
  rewrite (_encode_str_run x device w bs Henc Hlen).
  fold (cut_events x). unfold bind at 1.
  rewrite _apply_op_run.
  destruct (f (operand (encoded bs device) device)) as [r|e].
  - rewrite after_after, <- !app_assoc. unfold bind, lift, ret.
    now destruct (_decode_str (restored (encoded bs device) device r)).
  - now rewrite after_after, <- !app_assoc.
Qed.

(** [broadcast] of a string on the source rank. *)
Lemma broadcast_str_src (x : str) (bs : list Z) (src : Z) (w : world) :
  get_rank = src ->
  utf8.encode (cut x) = Ok bs ->
  len bs <= 1024 ->
  broadcast (Str x) src w
  = match _do_broadcast (operand (encoded bs device) device) src with
    | Ok r =>
        (res_bind (_decode_str (restored (encoded bs device) device r))
           (fun l => match l with
                     | s :: _ => Ok (Str s)
                     | [] => Raise IndexError
                     end),
         after w (cut_events x ++ [To None (Some device)]
                  ++ forward_events (encoded bs device) device
                  ++ [Call "_do_broadcast"
                        (operand (encoded bs device) device)]
                  ++ backward_events (encoded bs device) device))
    | Raise e =>
        (Raise e,
         after w (cut_events x ++ [To None (Some device)]
                  ++ forward_events (encoded bs device) device
                  ++ [Call "_do_broadcast"
                        (operand (encoded bs device) device)]))
    end.
Proof.
  intros Hsrc Henc Hlen. unfold broadcast.
  cbn [isinstance_Tensor isinstance_Number isinstance_str orb negb].
  rewrite Hsrc, Z.eqb_refl. cbn [negb].
  unfold bind at 1. unfold bind at 1.
  rewrite (_encode_str_run x device w bs Henc Hlen).
  fold (cut_events x). unfold ret at 1. cbn [fst snd].
  unfold bind at 1. unfold lift at 1. unfold bind at 1.
  rewrite _apply_op_run.
  destruct (_do_broadcast (operand (encoded bs device) device) src) as [r|e].
  - rewrite after_after, <- !app_assoc. unfold bind, lift, ret, raise.
    destruct (_decode_str (restored (encoded bs device) device r))
      as [[|s l]|e]; reflexivity.
  - now rewrite after_after, <- !app_assoc.
Qed.

(** [broadcast] of a string on another rank: the operand is a fresh
    buffer, whatever the string passed in. *)
Lemma broadcast_str_recv (x : str) (src : Z) (w : world) :
  get_rank <> src ->
  broadcast (Str x) src w
  = match _do_broadcast
            (operand (torch.empty [1%nat; 1025%nat] device torch.long
                        (uninitialized [1%nat; 1025%nat] torch.long))
               device) src with
    | Ok r =>
        (res_bind
           (_decode_str
              (restored (torch.empty [1%nat; 1025%nat] device torch.long
                           (uninitialized [1%nat; 1025%nat] torch.long))
                 device r))
           (fun l => match l with
                     | s :: _ => Ok (Str s)
                     | [] => Raise IndexError
                     end),
         after w (forward_events
                    (torch.empty [1%nat; 1025%nat] device torch.long
                       (uninitialized [1%nat; 1025%nat] torch.long)) device
                  ++ [Call "_do_broadcast"
                        (operand
                           (torch.empty [1%nat; 1025%nat] device torch.long
                              (uninitialized [1%nat; 1025%nat] torch.long))
                           device)]
                  ++ backward_events
                       (torch.empty [1%nat; 1025%nat] device torch.long
                          (uninitialized [1%nat; 1025%nat] torch.long))
                       device))
    | Raise e =>
        (Raise e,
         after w (forward_events
                    (torch.empty [1%nat; 1025%nat] device torch.long
                       (uninitialized [1%nat; 1025%nat] torch.long)) device
                  ++ [Call "_do_broadcast"
                        (operand
                           (torch.empty [1%nat; 1025%nat] device torch.long
                              (uninitialized [1%nat; 1025%nat] torch.long))
                           device)]))
    end.
Proof.
  intros Hsrc. unfold broadcast.
  cbn [isinstance_Tensor isinstance_Number isinstance_str orb negb].
  apply Z.eqb_neq in Hsrc. rewrite Hsrc. cbn [negb].
  unfold bind at 1. unfold ret at 1. cbn [fst snd].
  unfold bind at 1. unfold lift at 1. unfold bind at 1.
  rewrite _apply_op_run.
  destruct (_do_broadcast _ src) as [r|e]; [|reflexivity].
  unfold bind, lift, ret, raise.
  destruct (_decode_str _) as [[|s l]|e]; reflexivity.
Qed.

End Strings.

(** The integers from 0 to 1024 survive the conversion to [float16],
    [float32] or [float64] and back to [long]. *)
Lemma cast_back_small (d : torch.dtype) (z : Z) :
  d = torch.float16 \/ d = torch.float32 \/ d = torch.float64 ->
  0 <= z <= 1024 ->
  torch.cast torch.long (torch.cast d (PyInt z)) = PyInt z.
Proof.
  intros Hd Hz.
  assert (Hall : forallb
                   (fun n =>
                      match torch.cast torch.long
                              (torch.cast d (PyInt (Z.of_nat n))) with
                      | PyInt z' => z' =? Z.of_nat n
                      | _ => false
                      end) (seq 0 1025) = true)
    by (destruct Hd as [->|[->| ->]]; vm_compute; reflexivity).
  rewrite forallb_forall in Hall.
  specialize (Hall (Z.to_nat z)).
  rewrite Z2Nat.id in Hall by lia.
  assert (Hin : In (Z.to_nat z) (seq 0 1025)) by (apply in_seq; lia).
  specialize (Hall Hin).
  destruct (torch.cast torch.long (torch.cast d (PyInt z))) as [z'| |];
    try discriminate.
  apply Z.eqb_eq in Hall. now subst z'.
Qed.

Lemma encoded_row_small (bs : list Z) :
  forallb (fun b => (0 <=? b) && (b <? 256)) bs = true ->
  len bs <= 1024 ->
  Forall (fun e => exists z, e = PyInt z /\ 0 <= z <= 1024) (encoded_row bs).
Proof.
  intros Hbytes Hlen. unfold encoded_row. rewrite !Forall_app. repeat split.
  - rewrite forallb_forall in Hbytes. apply Forall_forall. intros e He.
    apply in_map_iff in He as [b [<- Hb]]. exists b. split; [reflexivity|].
    specialize (Hbytes b Hb). apply andb_prop in Hbytes as [H0 H1].
    apply Z.leb_le in H0. apply Z.ltb_lt in H1. lia.
  - apply Forall_forall. intros e He. apply repeat_spec in He. subst e.
    exists 0. split; [reflexivity|lia].
  - constructor; [|constructor]. exists (len bs).
    split; [reflexivity|]. pose proof (len_nonneg bs). lia.
Qed.

Lemma cast_back_row (d : torch.dtype) (row : list number) :
  d = torch.float16 \/ d = torch.float32 \/ d = torch.float64 ->
  Forall (fun e => exists z, e = PyInt z /\ 0 <= z <= 1024) row ->
  map (torch.cast torch.long) (map (torch.cast d) row) = row.
Proof.
  intros Hd. induction 1 as [|e row [z [-> Hz]] _ IH]; [reflexivity|].
  cbn [map]. now rewrite IH, cast_back_small.
Qed.

Section StringCollectives.

Context `{self : ComputationModel}.

(** An encoded buffer comes back from the conversion to the collective
    dtype and its reversal as it was. *)
Lemma restored_operand_encoded (bs : list Z) :
  (_collective_op_dtype = None
   \/ _collective_op_dtype = Some torch.float16
   \/ _collective_op_dtype = Some torch.float32
   \/ _collective_op_dtype = Some torch.float64) ->
  forallb (fun b => (0 <=? b) && (b <? 256)) bs = true ->
  len bs <= 1024 ->
  restored (encoded bs device) device (operand (encoded bs device) device)
  = encoded bs device.
Proof.
  intros Hcd Hbytes Hlen.
  unfold restored, reversal, operand, relocates, upcasts.
  cbn [encoded torch.tdevice torch.tdtype]. rewrite device_eqb_refl.
  cbn [negb torch.dtype_eqb torch.long orb].
  destruct Hcd as [->|Hcd]; [reflexivity|].
  assert (Hd : exists d, _collective_op_dtype = Some d
                         /\ (d = torch.float16 \/ d = torch.float32
                             \/ d = torch.float64)).
  { destruct Hcd as [H|[H|H]]; eexists; (split; [exact H|]); auto. }
  destruct Hd as [d [-> Hd]].
  unfold torch.to_, encoded.
  cbn [torch.tdata torch.tdtype torch.tdevice torch.tshape].
  assert (E1 : torch.dtype_eqb d torch.long = false)
    by (destruct Hd as [->|[->| ->]]; reflexivity).
  assert (E2 : torch.dtype_eqb torch.long d = false)
    by (destruct Hd as [->|[->| ->]]; reflexivity).
  rewrite E1, E2. f_equal.
  apply (cast_back_row d (encoded_row bs) Hd).
  now apply encoded_row_small.
Qed.

(** X7.  A string that fits the buffer survives [all_gather] when the
    primitive returns its operand, as it does in a group of one process:
    the result is the one-element list of the (cut) string, also when the
    buffer travels as [float16], [float32] or [float64]. *)
Theorem all_gather_str_identity (x : str) (bs : list Z) (w : world) :
  (_collective_op_dtype = None
   \/ _collective_op_dtype = Some torch.float16
   \/ _collective_op_dtype = Some torch.float32
   \/ _collective_op_dtype = Some torch.float64) ->
  utf8.encode (cut x) = Ok bs ->
  len bs <= 1024 ->
  _do_all_gather (operand (encoded bs device) device)
  = Ok (operand (encoded bs device) device) ->
  fst (all_gather (Str x) w) = Ok (PyList [Str (cut x)]).
Proof.
  intros Hcd Henc Hlen Hid. unfold all_gather.
  cbn [isinstance_Tensor isinstance_Number isinstance_str orb negb].
  rewrite (_collective_op_str_run x bs _ _ w Henc Hlen), Hid. cbn [fst].
  destruct (decode_encode _ _ Henc) as [_ Hbytes].
  unfold bytearray in Hbytes.
  destruct (forallb _ bs) eqn:Hrange; [|discriminate].
  rewrite (restored_operand_encoded bs Hcd Hrange Hlen).
  now rewrite (_decode_str_encoded (cut x) bs device Henc Hlen).
Qed.

(** X8.  In a group, [all_gather] of a string returns the strings of all
    ranks in rank order: if the batch that comes back, once cast back, is
    the stack of the ranks' encoded buffers, the result is the list of
    their strings. *)
Theorem all_gather_str_batch (x : str) (bs : list Z) (w : world)
    (r : torch.Tensor) (xs : list str) (bss : list (list Z))
    (dev : torch.device) :
  utf8.encode (cut x) = Ok bs ->
  len bs <= 1024 ->
  _do_all_gather (operand (encoded bs device) device) = Ok r ->
  restored (encoded bs device) device r = stack bss dev ->
  Forall2 (fun y b => utf8.encode y = Ok b /\ len b <= 1024) xs bss ->
  fst (all_gather (Str x) w) = Ok (PyList (map Str xs))
  /\ seen_by_primitive (trace (snd (all_gather (Str x) w)))
     = seen_by_primitive (trace w) ++ [operand (encoded bs device) device].
Proof.
  intros Henc Hlen Hr Hstack Hall. unfold all_gather.
  cbn [isinstance_Tensor isinstance_Number isinstance_str orb negb].
  rewrite (_collective_op_str_run x bs _ _ w Henc Hlen), Hr.
  cbn [fst snd after trace]. split.
  - now rewrite Hstack, (decode_str_batch xs bss dev Hall).
  - rewrite !seen_by_primitive_app, seen_forward, seen_backward.
    assert (Hc : seen_by_primitive (cut_events x) = [])
      by (unfold cut_events; now destruct (len x >? 1024)).
    rewrite Hc. cbn. rewrite ?app_nil_r. reflexivity.
Qed.

(** X9.  On the source rank [broadcast] gives a string that fits the
    buffer back (cut to 1024 code points if longer) when the primitive
    returns its operand. *)
Theorem broadcast_str_source (x : str) (bs : list Z) (src : Z) (w : world) :
  (_collective_op_dtype = None
   \/ _collective_op_dtype = Some torch.float16
   \/ _collective_op_dtype = Some torch.float32
   \/ _collective_op_dtype = Some torch.float64) ->
  get_rank = src ->
  utf8.encode (cut x) = Ok bs ->
  len bs <= 1024 ->
  _do_broadcast (operand (encoded bs device) device) src
  = Ok (operand (encoded bs device) device) ->
  fst (broadcast (Str x) src w) = Ok (Str (cut x)).
Proof.
  intros Hcd Hsrc Henc Hlen Hid.
  rewrite (broadcast_str_src x bs src w Hsrc Henc Hlen), Hid. cbn [fst].
  destruct (decode_encode _ _ Henc) as [_ Hbytes].
  unfold bytearray in Hbytes.
  destruct (forallb _ bs) eqn:Hrange; [|discriminate].
  rewrite (restored_operand_encoded bs Hcd Hrange Hlen).
  now rewrite (_decode_str_encoded (cut x) bs device Henc Hlen).
Qed.

(** X10.  On another rank [broadcast] ignores the value passed in: any
    two numbers give the same run, and so do any two strings; and if what
    the primitive delivers, once cast back, is the encoded buffer of the
    source's string, that string is the result. *)
Theorem broadcast_receiver_ignores_value (a b : number) (x y : str)
    (src : Z) (w : world) :
  get_rank <> src ->
  broadcast (Number a) src w = broadcast (Number b) src w
  /\ broadcast (Str x) src w = broadcast (Str y) src w
  /\ (forall r s0 bs0 dev,
        _do_broadcast
          (operand (torch.empty [1%nat; 1025%nat] device torch.long
                      (uninitialized [1%nat; 1025%nat] torch.long)) device)
          src = Ok r ->
        restored (torch.empty [1%nat; 1025%nat] device torch.long
                    (uninitialized [1%nat; 1025%nat] torch.long)) device r
        = encoded bs0 dev ->
        utf8.encode s0 = Ok bs0 ->
        len bs0 <= 1024 ->
        fst (broadcast (Str x) src w) = Ok (Str s0)).
Proof.
  intros Hsrc. split; [|split].
  - unfold broadcast.
    cbn [isinstance_Tensor isinstance_Number isinstance_str orb negb].
    apply Z.eqb_neq in Hsrc. now rewrite Hsrc.
  - now rewrite !broadcast_str_recv.
  - intros r s0 bs0 dev Hr Hres Henc Hlen.
    rewrite (broadcast_str_recv x src w Hsrc), Hr. cbn [fst].
    now rewrite Hres, (_decode_str_encoded s0 bs0 dev Henc Hlen).
Qed.

(** X11.  [all_gather] and [broadcast] refuse an operand that is not a
    tensor, a number or a string with [TypeError], before anything else
    happens; [all_reduce] refuses a string in the same way. *)
Theorem collectives_unsupported_kind (x : pyobj) (s : str) (op : string)
    (src : Z) (w : world) :
  isinstance_Tensor x = false ->
  isinstance_Number x = false ->
  isinstance_str x = false ->
  all_gather x w = (Raise TypeError, w)
  /\ broadcast x src w = (Raise TypeError, w)
  /\ all_reduce (Str s) op w = (Raise TypeError, w).
Proof.
  intros Ht Hn Hs. unfold all_gather, broadcast, all_reduce.
  rewrite Ht, Hn, Hs. repeat split.
Qed.

End StringCollectives.

Lemma all_gather_str_identity_witness :
  fst (all_gather (self := host_model) (Str [104; 233]) __init__)
  = Ok (PyList [Str [104; 233]]).
Proof.
  apply (all_gather_str_identity (self := host_model) [104; 233]
           [104; 195; 169] __init__).
  - right; right; left. reflexivity.
  - vm_compute. reflexivity.
  - vm_compute. discriminate.
  - reflexivity.
Defined.

Lemma all_gather_str_batch_witness :
  fst (all_gather (self := text_group) (Str [98]) __init__)
  = Ok (PyList [Str [97]; Str [98]; Str [99]]).
Proof.
  apply (proj1 (all_gather_str_batch (self := text_group) [98] [98] __init__
                  _ [[97]; [98]; [99]] [[97]; [98]; [99]] torch.cpu
                  ltac:(vm_compute; reflexivity)
                  ltac:(vm_compute; discriminate)
                  eq_refl
                  ltac:(vm_compute; reflexivity)
                  ltac:(repeat constructor; vm_compute; discriminate))).
Defined.

Lemma broadcast_str_source_witness :
  fst (broadcast (self := double_model) (Str [104; 8364]) 1 __init__)
  = Ok (Str [104; 8364]).
Proof.
  apply (broadcast_str_source (self := double_model) [104; 8364]
           [104; 226; 130; 172] 1 __init__).
  - right; right; right. reflexivity.
  - reflexivity.
  - vm_compute. reflexivity.
  - vm_compute. discriminate.
  - reflexivity.
Defined.

Lemma broadcast_receiver_ignores_value_witness :
  broadcast (self := receiving_model) (Number (PyInt 1)) 0 __init__
  = broadcast (self := receiving_model) (Number (PyInt 2)) 0 __init__
  /\ broadcast (self := receiving_model) (Str [120]) 0 __init__
     = broadcast (self := receiving_model) (Str [121; 122]) 0 __init__
  /\ fst (broadcast (self := receiving_model) (Str [120]) 0 __init__)
     = Ok (Str [104; 105]).
Proof.
  destruct (broadcast_receiver_ignores_value (self := receiving_model)
              (PyInt 1) (PyInt 2) [120] [121; 122] 0 __init__
              ltac:(vm_compute; discriminate))
    as [Hnum [Hstr Hrecv]].
  split; [exact Hnum|]. split; [exact Hstr|].
  apply (Hrecv _ [104; 105] [104; 105] torch.cpu eq_refl).
  - vm_compute. reflexivity.
  - vm_compute. reflexivity.
  - vm_compute. discriminate.
Defined.

Lemma collectives_unsupported_kind_witness :
  all_gather (self := host_model) PyNone __init__ = (Raise TypeError, __init__)
  /\ broadcast (self := host_model) PyNone 0 __init__
     = (Raise TypeError, __init__)
  /\ all_reduce (self := host_model) (Str [97]) "sum" __init__
     = (Raise TypeError, __init__).
Proof.
  apply (collectives_unsupported_kind (self := host_model) PyNone [97] "sum"
           0 __init__); reflexivity.
Defined.

(** ** Tensors and numbers through the collectives *)

Lemma cast_int64_id (z : Z) :
  - 2 ^ 63 <= z < 2 ^ 63 -> torch.cast torch.int64 (PyInt z) = PyInt z.
Proof.
  intros Hz. unfold torch.cast.
  cbn [torch.float_format torch.int_format torch.as_Z]. unfold torch.wrap.
  change (2 ^ 63) with 9223372036854775808 in Hz.
  change (2 ^ (64 - 1)) with 9223372036854775808.
  change (2 ^ 64) with 18446744073709551616.
  cbn [andb]. f_equal.
  destruct (Z.ltb_spec z 0).
  - replace (z mod 18446744073709551616) with (z + 18446744073709551616)
      by (apply Z.mod_unique with (-1); lia).
    destruct (Z.leb_spec 9223372036854775808 (z + 18446744073709551616)); lia.
  - rewrite Z.mod_small by lia.
    destruct (Z.leb_spec 9223372036854775808 z); lia.
Qed.

Lemma store_int64_range (z : Z) (e : number) :
  torch.store torch.int64 (PyInt z) = Ok e -> - 2 ^ 63 <= z < 2 ^ 63.
Proof.
  unfold torch.store. cbn [torch.is_floating_point].
  destruct (Z.ltb_spec z (- 2 ^ 63)); cbn [orb]; [discriminate|].
  destruct (Z.leb_spec (2 ^ 63) z); [discriminate|]. lia.
Qed.

Section TensorsAndNumbers.

Context `{self : ComputationModel}.

Lemma given_back_restored (t r : torch.Tensor) (dev : torch.device) :
  given_back t r (restored t dev r) dev.
Proof.
  unfold given_back, restored, reversal.
  destruct (upcasts t), (relocates t dev); repeat split.
Qed.

Lemma _collective_op_tensor_run (t : torch.Tensor) (name : string)
    (f : torch.Tensor -> res torch.Tensor) (w : world) (r : torch.Tensor) :
  f (operand t device) = Ok r ->
  _collective_op (Tensor t) (call name f) w
  = (Ok (Tensor (restored t device r)),
     after w (forward_events t device ++ [Call name (operand t device)]
              ++ backward_events t device)).
Proof.
  intros Hr. unfold _collective_op. unfold bind.
  now rewrite _apply_op_run, Hr.
Qed.

Lemma broadcast_tensor_run (t : torch.Tensor) (src : Z) (w : world)
    (r : torch.Tensor) :
  _do_broadcast (operand t device) src = Ok r ->
  broadcast (Tensor t) src w
  = (Ok (Tensor (restored t device r)),
     after w (forward_events t device
              ++ [Call "_do_broadcast" (operand t device)]
              ++ backward_events t device)).
Proof.
  intros Hr. unfold broadcast.
  cbn [isinstance_Tensor isinstance_Number isinstance_str orb negb].
  unfold bind at 1.
  destruct (negb (get_rank =? src)); unfold ret at 1; cbn [fst snd];
    unfold bind at 1; unfold lift at 1; unfold bind at 1;
    now rewrite _apply_op_run, Hr.
Qed.

(** X12.  A tensor given to [all_reduce], [all_gather] or [broadcast]
    comes back, when the primitive returns, as a tensor of the shape the
    primitive returned, with the dtype of the input if the input was cast
    and its device if it was relocated; [broadcast] treats a tensor in the
    same way on the source rank and on the others. *)
Theorem tensor_collectives_give_back (t : torch.Tensor) (op : string)
    (src : Z) (w : world) :
  (forall r, _do_all_reduce (operand t device) op = Ok r ->
     fst (all_reduce (Tensor t) op w) = Ok (Tensor (restored t device r))
     /\ given_back t r (restored t device r) device)
  /\ (forall r, _do_all_gather (operand t device) = Ok r ->
        fst (all_gather (Tensor t) w) = Ok (Tensor (restored t device r))
        /\ given_back t r (restored t device r) device)
  /\ (forall r, _do_broadcast (operand t device) src = Ok r ->
        fst (broadcast (Tensor t) src w) = Ok (Tensor (restored t device r))
        /\ given_back t r (restored t device r) device).
Proof.
  repeat apply conj; intros r Hr; (split; [|apply given_back_restored]).
  - unfold all_reduce. cbn [isinstance_Tensor isinstance_Number orb negb].
    now rewrite (_collective_op_tensor_run t _ _ w r Hr).
  - unfold all_gather.
    cbn [isinstance_Tensor isinstance_Number isinstance_str orb negb].
    now rewrite (_collective_op_tensor_run t _ _ w r Hr).
  - now rewrite (broadcast_tensor_run t src w r Hr).
Qed.


Lemma _collective_op_number_identity (x : number) (t0 : torch.Tensor)
    (name : string) (f : torch.Tensor -> res torch.Tensor) (w : world) :
  torch.tensor x device _collective_op_dtype = Ok t0 ->
  f t0 = Ok t0 ->
  _collective_op (Number x) (call name f) w
  = (Ok (Number (torch.cast (torch.tdtype t0) x)),
     after w (forward_events t0 device ++ [Call name t0]
              ++ backward_events t0 device)).
Proof.
  intros Ht Hf.
  pose proof (operand_scalar _ _ Ht) as Hop.
  pose proof (tensor_scalar _ _ _ _ Ht) as Hshape.
  assert (Hres : restored t0 device t0 = t0).
  { unfold restored, reversal, relocates.
    assert (Hdev : torch.tdevice t0 = device) by now subst t0.
    rewrite Hdev, device_eqb_refl. cbn [negb].
    destruct (upcasts t0); [|reflexivity].
    apply to_same_dtype. }
  unfold _collective_op. unfold bind at 1. unfold lift at 1. rewrite Ht.
  unfold bind at 1. rewrite _apply_op_run, Hop, Hf, Hres.
  assert (Hn : torch.numel t0 = 1) by now subst t0.
  rewrite Hn. cbn [Z.eqb Pos.eqb]. unfold bind, lift, ret.
  assert (Hitem : torch.item t0 = Ok (torch.cast (torch.tdtype t0) x))
    by now subst t0.
  now rewrite Hitem.
Qed.

(** X14.  When the primitive returns its operand, [all_reduce] of a number
    gives the number as stored in a tensor of the collective dtype, or of
    the dtype torch infers if none is configured.  So without a collective
    dtype an [int] comes back as it is and a [float] rounded to [float32];
    with a floating collective dtype every number comes back as a
    [float]. *)
Theorem all_reduce_number_identity (x : number) (t0 : torch.Tensor)
    (op : string) (w : world) :
  torch.tensor x device _collective_op_dtype = Ok t0 ->
  _do_all_reduce t0 op = Ok t0 ->
  fst (all_reduce (Number x) op w)
  = Ok (Number (torch.cast (torch.tdtype t0) x))
  /\ seen_by_primitive (trace (snd (all_reduce (Number x) op w)))
     = seen_by_primitive (trace w) ++ [t0]
  /\ (_collective_op_dtype = None ->
      (forall z, x = PyInt z ->
                 fst (all_reduce (Number x) op w) = Ok (Number (PyInt z)))
      /\ (forall f, x = PyFloat f ->
                    fst (all_reduce (Number x) op w)
                    = Ok (Number (PyFloat (torch.round_to 24 128 f)))))
  /\ (forall d, _collective_op_dtype = Some d ->
                torch.is_floating_point d = true ->
                exists f, fst (all_reduce (Number x) op w)
                          = Ok (Number (PyFloat f))).
Proof.
  intros Ht Hf.
  assert (Hrun : all_reduce (Number x) op w
                 = (Ok (Number (torch.cast (torch.tdtype t0) x)),
                    after w (forward_events t0 device
                             ++ [Call "_do_all_reduce" t0]
                             ++ backward_events t0 device))).
  { unfold all_reduce. cbn [isinstance_Tensor isinstance_Number orb negb].
    now apply _collective_op_number_identity. }
  pose proof (tensor_scalar _ _ _ _ Ht) as Hshape.
  rewrite Hrun. cbn [fst snd after trace]. repeat apply conj.
  - reflexivity.
  - rewrite !seen_by_primitive_app, seen_forward, seen_backward. cbn.
    rewrite ?app_nil_r. reflexivity.
  - intros Hnone. rewrite Hnone in Ht, Hshape. split.
    + intros z ->. unfold torch.tensor in Ht. cbn [torch.infer_dtype] in Ht.
      destruct (torch.store torch.int64 (PyInt z)) as [e|] eqn:E;
        [|discriminate].
      apply store_int64_range in E. subst t0.
      cbn [torch.tdtype torch.infer_dtype]. now rewrite cast_int64_id.
    + intros f ->. subst t0. reflexivity.
  - intros d Hd Hfl. rewrite Hd in Hshape. subst t0.
    cbn [torch.tdtype]. unfold torch.cast.
    destruct d; try discriminate; cbn [torch.float_format]; eexists;
      reflexivity.
Qed.

End TensorsAndNumbers.

Lemma tensor_collectives_give_back_witness :
  fst (all_reduce (self := gpu_model) (Tensor int_tensor) "sum" __init__)
  = Ok (Tensor int_tensor)
  /\ fst (all_gather (self := gpu_model) (Tensor int_tensor) __init__)
     = Ok (Tensor int_tensor)
  /\ fst (broadcast (self := gpu_model) (Tensor int_tensor) 1 __init__)
     = Ok (Tensor int_tensor)
  /\ given_back (self := gpu_model) int_tensor
       (operand (self := gpu_model) int_tensor (torch.cuda None))
       int_tensor (torch.cuda None).
Proof.
  destruct (tensor_collectives_give_back (self := gpu_model) int_tensor
              "sum" 1 __init__) as [Hred [Hgat Hbro]].
  split; [exact (proj1 (Hred _ eq_refl))|].
  split; [exact (proj1 (Hgat _ eq_refl))|].
  split; [exact (proj1 (Hbro _ eq_refl))|].
  exact (proj2 (Hred _ eq_refl)).
Defined.


Lemma all_reduce_number_identity_witness :
  fst (all_reduce (self := plain_model) (Number (PyInt (-7))) "sum" __init__)
  = Ok (Number (PyInt (-7)))
  /\ (exists f,
        fst (all_reduce (self := host_model) (Number (PyInt (-7))) "sum"
               __init__)
        = Ok (Number (PyFloat f))).
Proof.
  split.
  - destruct (all_reduce_number_identity (self := plain_model) (PyInt (-7))
                _ "sum" __init__ eq_refl eq_refl)
      as [_ [_ [Hnone _]]].
    exact (proj1 (Hnone eq_refl) (-7) eq_refl).
  - destruct (all_reduce_number_identity (self := host_model) (PyInt (-7))
                _ "sum" __init__ eq_refl eq_refl)
      as [_ [_ [_ Hfloat]]].
    exact (Hfloat torch.float32 eq_refl eq_refl).
Defined.

(** ** More on the topology *)

Section MoreTopology.

Context `{self : ComputationModel}.

(** X15.  A pre-supplied [nproc_per_node] is used as it is: no probe is
    made, whatever the world size, and the fields still unresolved are
    derived from it, the resolved ones kept. *)
Theorem setup_attrs_presupplied_nproc (p : Z) (b c : option Z)
    (tr : list event) :
  p <> 0 ->
  _setup_attrs (mkWorld (Some p) b c tr)
  = (Ok tt,
     mkWorld (Some p)
       (Some (match b with Some n => n | None => get_world_size / p end))
       (Some (match c with Some k => k | None => get_rank / p end))
       tr).
Proof.
  intros Hp. apply Z.eqb_neq in Hp.
  unfold _setup_attrs, bind, get, ret, the, lift, raise, floordiv; cbn.
  destruct b, c; cbn; rewrite ?Hp; cbn; rewrite ?Hp; reflexivity.
Qed.

(** X16.  If the probe answers 0, [_setup_attrs] raises
    [ZeroDivisionError] with [nproc_per_node] already set to 0; every later
    run then raises again, without probing. *)
Theorem setup_attrs_zero_probe (tr : list event) :
  1 < get_world_size ->
  _compute_nproc_per_node = Ok 0 ->
  _setup_attrs (mkWorld None None None tr)
  = (Raise ZeroDivisionError, mkWorld (Some 0) None None (tr ++ [Probe]))
  /\ _setup_attrs (mkWorld (Some 0) None None (tr ++ [Probe]))
     = (Raise ZeroDivisionError, mkWorld (Some 0) None None (tr ++ [Probe])).
Proof.
  intros Hws Hp. split.
  - unfold _setup_attrs, bind, get, ret; cbn.
    replace (get_world_size >? 1) with true
      by (symmetry; rewrite Z.gtb_ltb; apply Z.ltb_lt; lia).
    unfold lift. rewrite Hp. reflexivity.
  - reflexivity.
Qed.

(** X17.  If the probe raises, the exception reaches the caller and no
    field is resolved, so a later run probes again. *)
Theorem setup_attrs_probe_raises (b c : option Z) (tr : list event)
    (e : exn) :
  1 < get_world_size ->
  _compute_nproc_per_node = Raise e ->
  _setup_attrs (mkWorld None b c tr)
  = (Raise e, mkWorld None b c (tr ++ [Probe]))
  /\ _setup_attrs (mkWorld None b c (tr ++ [Probe]))
     = (Raise e, mkWorld None b c ((tr ++ [Probe]) ++ [Probe])).
Proof.
  intros Hws Hp.
  assert (E : (get_world_size >? 1) = true)
    by (rewrite Z.gtb_ltb; apply Z.ltb_lt; lia).
  split; unfold _setup_attrs, bind, get, ret; cbn; rewrite E;
    unfold lift; rewrite Hp; reflexivity.
Qed.

(** X18.  With a positive [nproc_per_node] and [0 <= rank < world_size],
    the fields derived from unresolved ones satisfy
    [nnodes * nproc_per_node <= world_size < (nnodes + 1) * nproc_per_node]
    and [0 <= node_rank <= nnodes]; [node_rank < nnodes] holds when
    [nproc_per_node] divides [world_size], and can fail otherwise. *)
Theorem setup_attrs_bounds (tr : list event) (w' : world) (p n k : Z) :
  _setup_attrs (mkWorld None None None tr) = (Ok tt, w') ->
  _nproc_per_node w' = Some p ->
  _nnodes w' = Some n ->
  _node w' = Some k ->
  0 < p ->
  0 <= get_rank < get_world_size ->
  n * p <= get_world_size < (n + 1) * p
  /\ 0 <= k <= n
  /\ k * p <= get_rank < (k + 1) * p
  /\ (get_world_size mod p = 0 -> k < n).
Proof.
  intros Hrun Hp Hn Hk Hpos Hrank.
  assert (Hn' : n = get_world_size / p /\ k = get_rank / p).
  { revert Hrun.
    unfold _setup_attrs, bind, get, ret, the, lift, raise, floordiv; cbn.
    destruct (get_world_size >? 1); cbn;
      [destruct _compute_nproc_per_node as [q|e]; cbn|];
      repeat (match goal with
              | H : (?x =? 0) = _ |- context [?x =? 0] => rewrite H
              | |- context [?x =? 0] => destruct (x =? 0) eqn:?
              end; cbn);
      intros Hrun; inversion Hrun; subst w'; cbn in *;
      split; congruence. }
  destruct Hn' as [-> ->].
  pose proof (Z.div_mod get_world_size p ltac:(lia)) as Hws.
  pose proof (Z.mod_pos_bound get_world_size p Hpos) as Hwm.
  pose proof (Z.div_mod get_rank p ltac:(lia)) as Hr.
  pose proof (Z.mod_pos_bound get_rank p Hpos) as Hrm.
  assert (Hk0 : 0 <= get_rank / p) by (apply Z.div_pos; lia).
  assert (Hkn : get_rank / p <= get_world_size / p)
    by (apply Z.div_le_mono; lia).
  repeat split; nia.
Qed.

(** X19.  What the base class derives for rank 0 in a world of size 1 is
    what [_SerialModel] answers: one process per node, one node, node rank
    0, and no probe. *)
Theorem setup_attrs_serial :
  get_world_size = _SerialModel.get_world_size ->
  get_rank = _SerialModel.get_rank ->
  _setup_attrs __init__
  = (Ok tt,
     mkWorld (Some _SerialModel.get_nproc_per_node)
       (Some _SerialModel.get_nnodes) (Some _SerialModel.get_node_rank) []).
Proof.
  intros Hws Hrank.
  unfold _setup_attrs, bind, get, ret, the, lift, floordiv; cbn.
  rewrite Hws, Hrank. reflexivity.
Qed.

End MoreTopology.

Lemma setup_attrs_presupplied_nproc_witness :
  _setup_attrs (self := mock 5 8 torch.cpu None (Raise (BackendError 1)) Ok)
    (mkWorld (Some 2) None (Some 9) [])
  = (Ok tt, mkWorld (Some 2) (Some 4) (Some 9) []).
Proof.
  apply (setup_attrs_presupplied_nproc
           (self := mock 5 8 torch.cpu None (Raise (BackendError 1)) Ok)
           2 None (Some 9) []).
  lia.
Defined.

Lemma setup_attrs_zero_probe_witness :
  _setup_attrs (self := mock 5 8 torch.cpu None (Ok 0) Ok) __init__
  = (Raise ZeroDivisionError, mkWorld (Some 0) None None [Probe])
  /\ _setup_attrs (self := mock 5 8 torch.cpu None (Ok 0) Ok)
       (mkWorld (Some 0) None None [Probe])
     = (Raise ZeroDivisionError, mkWorld (Some 0) None None [Probe]).
Proof.
  apply (setup_attrs_zero_probe
           (self := mock 5 8 torch.cpu None (Ok 0) Ok) []).
  - simpl. lia.
  - reflexivity.
Defined.

Lemma setup_attrs_probe_raises_witness :
  _setup_attrs (self := mock 5 8 torch.cpu None (Raise (BackendError 2)) Ok)
    (mkWorld None (Some 3) None [])
  = (Raise (BackendError 2), mkWorld None (Some 3) None [Probe])
  /\ _setup_attrs
       (self := mock 5 8 torch.cpu None (Raise (BackendError 2)) Ok)
       (mkWorld None (Some 3) None [Probe])
     = (Raise (BackendError 2), mkWorld None (Some 3) None [Probe; Probe]).
Proof.
  apply (setup_attrs_probe_raises
           (self := mock 5 8 torch.cpu None (Raise (BackendError 2)) Ok)
           (Some 3) None [] (BackendError 2)).
  - simpl. lia.
  - reflexivity.
Defined.

Lemma setup_attrs_bounds_witness :
  (2 * 4 <= 8 < (2 + 1) * 4 /\ 0 <= 1 <= 2 /\ 1 * 4 <= 5 < (1 + 1) * 4
   /\ 1 < 2)
  /\ (1 * 4 <= 7 < (1 + 1) * 4 /\ 0 <= 1 <= 1 /\ 1 * 4 <= 5 < (1 + 1) * 4).
Proof.
  split.
  - destruct (setup_attrs_bounds (self := mock 5 8 torch.cpu None (Ok 4) Ok)
                [] (mkWorld (Some 4) (Some 2) (Some 1) [Probe]) 4 2 1
                eq_refl eq_refl eq_refl eq_refl
                ltac:(lia) ltac:(simpl; lia))
      as [H1 [H2 [H3 H4]]].
    split; [exact H1|]. split; [exact H2|]. split; [exact H3|].
    exact (H4 eq_refl).
  - destruct (setup_attrs_bounds (self := mock 5 7 torch.cpu None (Ok 4) Ok)
                [] (mkWorld (Some 4) (Some 1) (Some 1) [Probe]) 4 1 1
                eq_refl eq_refl eq_refl eq_refl
                ltac:(lia) ltac:(simpl; lia))
      as [H1 [H2 [H3 _]]].
    split; [exact H1|]. split; [exact H2|]. exact H3.
Defined.

Lemma setup_attrs_serial_witness :
  _setup_attrs (self := plain_model) __init__
  = (Ok tt, mkWorld (Some 1) (Some 1) (Some 0) []).
Proof.
  apply (setup_attrs_serial (self := plain_model)); reflexivity.
Defined.

(** ** Shape of what the codec gives *)

Lemma res_map_length {A B} (f : A -> res B) (l : list A) (l' : list B) :
  res_map f l = Ok l' -> List.length l' = List.length l.
Proof.
  revert l'. induction l as [|a l IH]; intros l' H; cbn in H.
  - apply Ok_inj in H. now subst l'.
  - destruct (f a); [|discriminate]. cbn in H.
    destruct (res_map f l) as [bs|]; [|discriminate]. cbn in H.
    apply Ok_inj in H. subst l'. cbn. f_equal. now apply IH.
Qed.

Lemma chunks_length {A} (n k : nat) (l : list A) :
  List.length (torch.chunks n k l) = n.
Proof.
  revert l. induction n as [|n IH]; intros l; cbn; [reflexivity|].
  now rewrite IH.
Qed.

(** X20.  When [_decode_str] returns, it returns one string for each row of
    its argument: as many as the first dimension says. *)
Theorem decode_str_length (xs : torch.Tensor) (l : list str) (n : nat)
    (rest : list nat) :
  _decode_str xs = Ok l ->
  torch.tshape xs = n :: rest ->
  List.length l = n.
Proof.
  unfold _decode_str, torch.rows. intros H Hs. rewrite Hs in H.
  cbn [res_bind] in H. apply res_map_length in H.
  now rewrite H, length_map, chunks_length.
Qed.

Lemma decode_str_length_witness :
  _decode_str (stack [[104; 105]; []; [195; 169]] torch.cpu)
  = Ok [[104; 105]; []; [233]]
  /\ List.length [[104; 105]; []; [233]] = 3%nat.
Proof.
  assert (H : _decode_str (stack [[104; 105]; []; [195; 169]] torch.cpu)
              = Ok [[104; 105]; []; [233]])
    by (vm_compute; reflexivity).
  split; [exact H|].
  exact (decode_str_length (stack [[104; 105]; []; [195; 169]] torch.cpu)
           [[104; 105]; []; [233]] 3 [1025%nat] H eq_refl).
Defined.

Lemma all_ints_well_typed (zs : list Z) :
  forallb (torch.has_dtype torch.long) (map PyInt zs) = true.
Proof. induction zs as [|z zs IH]; [reflexivity|]. cbn. exact IH. Qed.

(** X21.  Whenever [_encode_str] returns, the tensor is a well-formed
    [(1, 1025)] tensor of [long] on the device asked for; the trace has
    gained the warning exactly if the string has more than 1024 code
    points, and the move of the bytes to the device. *)
Theorem encode_str_shape (x : str) (dev : torch.device) (w w' : world)
    (t : torch.Tensor) :
  _encode_str x dev w = (Ok t, w') ->
  torch.tshape t = [1%nat; 1025%nat]
  /\ torch.tdtype t = torch.long
  /\ torch.tdevice t = dev
  /\ torch.well_formed t = true
  /\ w' = after w ((if len x >? 1024 then [truncation_warning (len x)]
                    else []) ++ [To None (Some dev)]).
Proof.
  rewrite _encode_str_unfold.
  destruct (utf8.encode (cut x)) as [bs|e] eqn:Henc; [|discriminate].
  destruct (decode_encode _ _ Henc) as [_ Hbytes].
  unfold bytearray in Hbytes.
  destruct (forallb _ bs) eqn:Hrange; [|discriminate].
  destruct (Z_lt_le_dec 1025 (len bs)) as [Hbig|Hle].
  - rewrite setitem_overflow by assumption. discriminate.
  - destruct (Z.eq_dec (len bs) 1025) as [Hfull|Hne].
    + rewrite (setitem_full bs dev Hfull Hrange). intros H.
      inversion H; subst t w'. clear H. repeat split.
      unfold torch.well_formed.
      cbn [torch.tdata torch.tshape torch.tdtype].
      assert (Hn : List.length bs = 1025%nat) by (unfold len in Hfull; lia).
      rewrite length_app, length_map, (removelast_length bs 1024 Hn).
      replace (map PyInt (removelast bs) ++ [PyInt 1025])
        with (map PyInt (removelast bs ++ [1025]))
        by (now rewrite map_app).
      now rewrite all_ints_well_typed.
    + assert (Hlen : len bs <= 1024) by lia.
      destruct (pad_bytes bs dev Hlen Hrange) as (p1 & p2 & H1 & H2 & H3).
      rewrite H1. cbn [res_bind]. rewrite H2. cbn [res_bind]. rewrite H3.
      intros H. inversion H; subst t w'. clear H. repeat split.
      unfold torch.well_formed, encoded.
      cbn [torch.tdata torch.tshape torch.tdtype].
      assert (Hn : (List.length bs <= 1024)%nat)
        by (unfold len in Hlen; lia).
      pose proof (encoded_row_length bs Hn) as Hrow.
      unfold encoded_row in Hrow. rewrite Hrow.
      replace (map PyInt bs ++ repeat (PyInt 0) (1024 - List.length bs)
               ++ [PyInt (len bs)])
        with (map PyInt (bs ++ repeat 0 (1024 - List.length bs) ++ [len bs])).
      * now rewrite all_ints_well_typed.
      * rewrite !map_app. cbn [map]. do 2 f_equal.
        clear. induction (1024 - List.length bs)%nat as [|m IH];
          [reflexivity|]. cbn. now rewrite IH.
Qed.

Lemma encode_str_shape_witness :
  exists t,
    _encode_str (repeat 97 1500) (torch.cuda None) __init__
    = (Ok t, after __init__ [truncation_warning 1500;
                             To None (Some (torch.cuda None))])
    /\ torch.tshape t = [1%nat; 1025%nat]
    /\ torch.tdtype t = torch.long
    /\ torch.tdevice t = torch.cuda None
    /\ torch.well_formed t = true.
Proof.
  assert (H : _encode_str (repeat 97 1500) (torch.cuda None) __init__
              = (Ok (encoded (firstn 1024 (repeat 97 1500)) (torch.cuda None)),
                 after __init__ [truncation_warning 1500;
                                 To None (Some (torch.cuda None))]))
    by (vm_compute; reflexivity).
  destruct (encode_str_shape (repeat 97 1500) (torch.cuda None) __init__
              _ _ H) as [Hs [Hd [Hv [Hw _]]]].
  eexists. split; [exact H|]. split; [exact Hs|]. split; [exact Hd|].
  split; [exact Hv|exact Hw].
Defined.
